(** * Risk scoring for real-estate loan guarantors

    A shallow embedding of the two scoring functions of the repository,
    [calculateRiskScore] (the weighted multi-factor scorer of the first
    application) and [calculateRealEstateRisk] with its driver
    [runWorstCaseSimulation] (RiskCalculator.js), followed by the
    properties established about them.

    Numbers.  The form handlers coerce every entry that does not parse to
    [0], and the data model takes the fields to be real quantities, so a
    JavaScript number is modelled as an exact rational ([Q]).  Rounding of
    binary floating point, [NaN] and the infinities are outside this model.
    The one place where exact arithmetic can leave the rationals is a
    division by zero; divisions are therefore checked ([JS.div] returns
    [None] on a zero divisor) and the scorers live in the option monad, so
    that "no division by zero is ever evaluated" is a theorem and not a
    convention. *)

From Stdlib Require Import QArith Qround ZArith String Bool Lia Lqa.

Local Open Scope Q_scope.

(** ** The fragment of JavaScript used by the scorers *)

Module JS.

(** [x < y] and [x > y] on numbers. *)
Definition ltb (x y : Q) : bool := negb (Qle_bool y x).
Definition gtb (x y : Q) : bool := ltb y x.
(** [x >= y]. *)
Definition geb (x y : Q) : bool := Qle_bool y x.
(** [x === y] on numbers. *)
Definition strict_eq (x y : Q) : bool := Qeq_bool x y.

(** [x || d]: a number is falsy exactly when it is zero (the other falsy
    number, [NaN], is not a rational). *)
Definition or_else (x d : Q) : Q := if Qeq_bool x 0 then d else x.

(** [x / y], checked. *)
Definition div (x y : Q) : option Q :=
  if Qeq_bool y 0 then None else Some (x / y).

(** [Math.floor], [Math.min] and [Math.max]. *)
Definition floor (x : Q) : Q := inject_Z (Qfloor x).
Definition min (x y : Q) : Q := if Qle_bool x y then x else y.
Definition max (x y : Q) : Q := if Qle_bool x y then y else x.

(** Sequencing of computations that may divide. *)
Definition bind {A B : Type} (m : option A) (k : A -> option B) : option B :=
  match m with
  | Some a => k a
  | None => None
  end.

End JS.

Notation "'let*' x ':=' m 'in' k" := (JS.bind m (fun x => k))
  (at level 10, x name, m at level 100, k at level 200).

Infix "<?" := JS.ltb (at level 70, no associativity) : Q_scope.
Infix ">?" := JS.gtb (at level 70, no associativity) : Q_scope.
Infix ">=?" := JS.geb (at level 70, no associativity) : Q_scope.
Infix "|||" := JS.or_else (at level 50, left associativity) : Q_scope.

(** ** RiskCalculator.js: the DSR/DCR scorer and its stress driver *)

Module RiskCalculator.

(** The fields of the form object that the calculator reads. *)
Record FormData := mkFormData {
  annualIncomeDebtor : Q;
  annualRepayment : Q;
  loanAmount : Q;
  annualRentalIncomeGross : Q;
  annualExpensesRatio : Q;
  vacancyRateAssumption : Q;
  otherDebtsRatio : Q
}.

(** [dcrComment] is either the empty string or a template literal built
    around [dcr.toFixed(2)]; the template is represented by the number it
    interpolates. *)
Inductive DcrComment :=
| EmptyComment
| DcrCommentOf (dcr : Q).

(** The object returned by the scorer.  The early return carries no
    [annualNetIncome] property. *)
Record RiskResult := mkRiskResult {
  score : Q;
  level : string;
  dcrComment : DcrComment;
  dcrDetail : string;
  dcrValue : Q;
  annualNetIncome : option Q
}.

Definition fatalLevel : string :=
  "致命的リスク: 主債務者の年収がゼロです。".
Definition dcrDetailVeryHigh : string :=
  "【🚨極めて高いリスク】収益で返済を賄えません。持ち出し必須。".
Definition dcrDetailHigh : string :=
  "【⚠️高いリスク】DCRがタイトです。キャッシュフローに余裕がありません。".
Definition dcrDetailLow : string :=
  "【✅低いリスク】収益に一定の余裕があります。".
Definition levelVeryHigh : string :=
  "非常に高いリスク (⚠️ 専門家への相談を強く推奨)".
Definition levelHigh : string := "高いリスク (注意深く検討が必要)".
Definition levelMedium : string := "中程度のリスク (詳細な情報確認を)".
Definition levelLow : string := "比較的低いリスク".

(** The object of the early return. *)
Definition fatalResult : RiskResult :=
  {| score := 100;
     level := fatalLevel;
     dcrComment := EmptyComment;
     dcrDetail := "";
     dcrValue := 0;
     annualNetIncome := None |}.

(** [repaymentOverride !== undefined ? repaymentOverride : data.annualRepayment] *)
Definition effectiveRepayment (data : FormData) (repaymentOverride : option Q) : Q :=
  match repaymentOverride with
  | Some r => r
  | None => annualRepayment data
  end.

(** [Math.min(100, Math.floor(dsr * 150))] *)
Definition initialBaseScore (dsr : Q) : Q :=
  JS.min 100 (JS.floor (dsr * 150)).

(** NOI: vacancy is taken off the gross rent, and the expenses are a
    fraction of the gross rent as well. *)
Definition netIncome (data : FormData) : Q :=
  let grossIncomeAfterVacancy :=
    annualRentalIncomeGross data * (1 - vacancyRateAssumption data) in
  grossIncomeAfterVacancy
    - annualRentalIncomeGross data * annualExpensesRatio data.

(** DCR, with its sentinel when there is nothing to repay. *)
Definition debtCoverage (annualNetIncome annualRepayment : Q) : option Q :=
  if annualRepayment >? 0
  then JS.div annualNetIncome annualRepayment
  else Some 999.0.

(** The [if / else if / else] that adjusts the score by DCR: the
    adjusted score and the detail text of the branch taken. *)
Definition adjustByDcr (baseScore dcr : Q) : Q * string :=
  if dcr <? 1.0 then (baseScore + 40, dcrDetailVeryHigh)
  else if dcr <? 1.2 then (baseScore + 15, dcrDetailHigh)
  else (baseScore - 10, dcrDetailLow).

Definition levelOf (finalScore : Q) : string :=
  if finalScore >=? 70 then levelVeryHigh
  else if finalScore >=? 50 then levelHigh
  else if finalScore >=? 30 then levelMedium
  else levelLow.

Definition calculateRealEstateRisk
    (data : FormData) (repaymentOverride : option Q) : option RiskResult :=
  let annualRepayment := effectiveRepayment data repaymentOverride in
  if JS.strict_eq (annualIncomeDebtor data) 0.0 then Some fatalResult
  else
    let* dsr := JS.div annualRepayment (annualIncomeDebtor data) in
    let baseScore := initialBaseScore dsr in
    let annualNetIncome := netIncome data in
    let* dcr := debtCoverage annualNetIncome annualRepayment in
    let dcrComment := DcrCommentOf dcr in
    let '(baseScore, dcrDetail) := adjustByDcr baseScore dcr in
    let baseScore := baseScore + JS.floor (otherDebtsRatio data * 30) in
    let finalScore := JS.max 0 (JS.min 100 baseScore) in
    Some {| score := finalScore;
            level := levelOf finalScore;
            dcrComment := dcrComment;
            dcrDetail := dcrDetail;
            dcrValue := dcr;
            annualNetIncome := Some annualNetIncome |}.

(** [{ ...originalData, vacancyRateAssumption: worstVacancyRate }] *)
Definition withVacancyRate (d : FormData) (v : Q) : FormData :=
  {| annualIncomeDebtor := annualIncomeDebtor d;
     annualRepayment := annualRepayment d;
     loanAmount := loanAmount d;
     annualRentalIncomeGross := annualRentalIncomeGross d;
     annualExpensesRatio := annualExpensesRatio d;
     vacancyRateAssumption := v;
     otherDebtsRatio := otherDebtsRatio d |}.

Record Simulation := mkSimulation {
  original : RiskResult;
  vacancy : RiskResult;
  rateHike : RiskResult;
  newRepaymentAmount : Q
}.

(** A default parameter takes its default when the argument is absent. *)
Definition orDefault (arg : option Q) (default : Q) : Q :=
  match arg with
  | Some v => v
  | None => default
  end.

Definition runWorstCaseSimulation
    (originalData : FormData)
    (rateIncreasePercentageArg worstVacancyRateArg : option Q)
    : option Simulation :=
  let rateIncreasePercentage := orDefault rateIncreasePercentageArg 0.02 in
  let worstVacancyRate := orDefault worstVacancyRateArg 0.20 in
  let simDataVacancy := withVacancyRate originalData worstVacancyRate in
  let* resultVacancy := calculateRealEstateRisk simDataVacancy None in
  let annualRepaymentIncrease := loanAmount originalData * rateIncreasePercentage in
  let newAnnualRepayment := annualRepayment originalData + annualRepaymentIncrease in
  let* resultRate := calculateRealEstateRisk originalData (Some newAnnualRepayment) in
  let* resultOriginal := calculateRealEstateRisk originalData None in
  Some {| original := resultOriginal;
          vacancy := resultVacancy;
          rateHike := resultRate;
          newRepaymentAmount := newAnnualRepayment |}.

(** [initialFormData] of the form, restricted to the fields read here. *)
Definition initialFormData : FormData :=
  {| annualIncomeDebtor := 5000000;
     annualRepayment := 1000000;
     loanAmount := 30000000;
     annualRentalIncomeGross := 2000000;
     annualExpensesRatio := 0.3;
     vacancyRateAssumption := 0.1;
     otherDebtsRatio := 0.1 |}.

End RiskCalculator.

(** ** The weighted multi-factor scorer of the first application *)

Module MultiFactor.

Definition WORST_CASE_VACANCY_RATE : Q := 0.20.

Record Input := mkInput {
  annualIncome : Q;
  annualRepayment : Q;
  totalDebt : Q;
  annualRentIncome : Q;
  expenseRate : Q;
  vacancyRate : Q;
  interestRate : Q;
  simulatedInterestRate : Q;
  otherDebtRatio : Q
}.

Definition initialInput : Input :=
  {| annualIncome := 5000000;
     annualRepayment := 1000000;
     totalDebt := 30000000;
     annualRentIncome := 2000000;
     expenseRate := 0.3;
     vacancyRate := 0.1;
     interestRate := 0.03;
     simulatedInterestRate := 0.04;
     otherDebtRatio := 0.1 |}.

(** The two simulation texts are template literals; each template is
    represented by a constructor that carries the numbers it formats. *)
Inductive SimulatedDetail :=
| SimulatedStaysLow
| SimulatedMedium (ratePercent dcsr : Q)
| SimulatedHigh (ratePercent : Q).

Inductive VacancyDetail :=
| VacancyStable (vacancyPercent dcsr : Q)
| VacancyMedium (vacancyPercent dcsr : Q)
| VacancyHigh (vacancyPercent : Q).

Record Assessment := mkAssessment {
  finalScore : Q;
  riskLevel : string;
  riskDetail : string;
  creditScore : Q;
  propertyScore : Q;
  interestRiskScore : Q;
  currentDcsr : Q;
  simulatedDcsr : Q;
  simulatedRiskLevel : string;
  simulatedRiskDetail : SimulatedDetail;
  simulatedRepayment : Q;
  worstCaseVacancyDcsr : Q;
  vacancyRiskLevel : string;
  vacancyRiskDetail : VacancyDetail;
  worstCaseVacancyRate : Q
}.

Definition levelLow : string := "低".
Definition levelMedium : string := "中".
Definition levelHigh : string := "高".

Definition riskDetailLow : string :=
  "債務者・物件収益性ともに優れており、連帯保証リスクは非常に低いと評価されます。".
Definition riskDetailMedium : string :=
  "一部の財務指標に改善の余地があります。詳細な内訳（信用力、収益力）を確認し、懸念点を特定してください。".
Definition riskDetailHigh : string :=
  "信用力または物件収益力に大きな懸念があります。連帯保証人として引き受ける前に、詳細なリスクトレードオフ分析が必要です。".

Definition estimateIncreasedRepayment (totalDebt currentRate newRate : Q) : Q :=
  totalDebt * (newRate - currentRate) * 0.7.

(** [annualRepayment / (annualIncome || 1)] *)
Definition debtToIncomeRatio (input : Input) : option Q :=
  JS.div (annualRepayment input) (annualIncome input ||| 1).

(** [totalDebt / (annualIncome || 1)] *)
Definition totalDebtToIncomeRatio (input : Input) : option Q :=
  JS.div (totalDebt input) (annualIncome input ||| 1).

(** Credit sub-score, from 30. *)
Definition creditScoreOf
    (debtToIncomeRatio totalDebtToIncomeRatio otherDebtRatio : Q) : Q :=
  let creditScore := 30 in
  let creditScore :=
    if debtToIncomeRatio >? 0.3 then creditScore - 5 else creditScore in
  let creditScore :=
    if totalDebtToIncomeRatio >? 5 then creditScore - 10 else creditScore in
  let creditScore :=
    if otherDebtRatio >? 0.2 then creditScore - 5 else creditScore in
  if creditScore <? 0 then 0 else creditScore.

(** [annualRentIncome * (1 - vacancyRate) * (1 - expenseRate)] *)
Definition noi (input : Input) : Q :=
  annualRentIncome input * (1 - vacancyRate input) * (1 - expenseRate input).

(** [noi / (annualRepayment || 1)] *)
Definition dcsr (noi annualRepayment : Q) : option Q :=
  JS.div noi (annualRepayment ||| 1).

(** Property sub-score, from 40. *)
Definition propertyScoreOf (currentDcsr expenseRate vacancyRate : Q) : Q :=
  let propertyScore := 40 in
  let propertyScore :=
    if currentDcsr <? 1.2 then propertyScore - 10 else propertyScore in
  let propertyScore :=
    if currentDcsr <? 1.0 then propertyScore - 15 else propertyScore in
  let propertyScore :=
    if expenseRate >? 0.4 then propertyScore - 5 else propertyScore in
  let propertyScore :=
    if vacancyRate >? 0.15 then propertyScore - 5 else propertyScore in
  if propertyScore <? 0 then 0 else propertyScore.

(** Interest-rate sub-score, from 30. *)
Definition interestRiskScoreOf (interestRate totalDebtToIncomeRatio : Q) : Q :=
  let interestRiskScore := 30 in
  let interestRiskScore :=
    if interestRate >? 0.04 then interestRiskScore - 10 else interestRiskScore in
  let interestRiskScore :=
    if interestRate >? 0.05 then interestRiskScore - 10 else interestRiskScore in
  let interestRiskScore :=
    if totalDebtToIncomeRatio >? 8 then interestRiskScore - 5 else interestRiskScore in
  if interestRiskScore <? 0 then 0 else interestRiskScore.

(** Classification of the rate-hike simulation. *)
Definition simulatedRisk (simulatedInterestRate simulatedDcsr : Q)
    : string * SimulatedDetail :=
  let r := (levelLow, SimulatedStaysLow) in
  let r :=
    if simulatedDcsr <? 1.2
    then (levelMedium, SimulatedMedium (simulatedInterestRate * 100) simulatedDcsr)
    else r in
  if simulatedDcsr <? 1.0
  then (levelHigh, SimulatedHigh (simulatedInterestRate * 100))
  else r.

(** Classification of the vacancy simulation. *)
Definition vacancyRisk (worstCaseVacancyDcsr : Q) : string * VacancyDetail :=
  let r :=
    (levelLow, VacancyStable (WORST_CASE_VACANCY_RATE * 100) worstCaseVacancyDcsr) in
  let r :=
    if worstCaseVacancyDcsr <? 1.2
    then (levelMedium,
          VacancyMedium (WORST_CASE_VACANCY_RATE * 100) worstCaseVacancyDcsr)
    else r in
  if worstCaseVacancyDcsr <? 1.0
  then (levelHigh, VacancyHigh (WORST_CASE_VACANCY_RATE * 100))
  else r.

(** Level and text of the present assessment. *)
Definition currentRisk (finalScore : Q) : string * string :=
  let r := (levelLow, riskDetailLow) in
  let r := if finalScore <? 80 then (levelMedium, riskDetailMedium) else r in
  if finalScore <? 50 then (levelHigh, riskDetailHigh) else r.

Definition calculateRiskScore (input : Input) : option Assessment :=
  let* debtToIncomeRatio := debtToIncomeRatio input in
  let* totalDebtToIncomeRatio := totalDebtToIncomeRatio input in
  let creditScore :=
    creditScoreOf debtToIncomeRatio totalDebtToIncomeRatio (otherDebtRatio input) in
  let noi := noi input in
  let* currentDcsr := dcsr noi (annualRepayment input) in
  let propertyScore :=
    propertyScoreOf currentDcsr (expenseRate input) (vacancyRate input) in
  let interestRiskScore :=
    interestRiskScoreOf (interestRate input) totalDebtToIncomeRatio in
  let increasedRepayment :=
    estimateIncreasedRepayment
      (totalDebt input) (interestRate input) (simulatedInterestRate input) in
  let simulatedRepayment := annualRepayment input + increasedRepayment in
  let* simulatedDcsr := dcsr noi simulatedRepayment in
  let '(simulatedRiskLevel, simulatedRiskDetail) :=
    simulatedRisk (simulatedInterestRate input) simulatedDcsr in
  let worstCaseVacancyNoi :=
    annualRentIncome input * (1 - WORST_CASE_VACANCY_RATE) * (1 - expenseRate input) in
  let* worstCaseVacancyDcsr := dcsr worstCaseVacancyNoi (annualRepayment input) in
  let '(vacancyRiskLevel, vacancyRiskDetail) := vacancyRisk worstCaseVacancyDcsr in
  let finalScore := creditScore + propertyScore + interestRiskScore in
  let '(riskLevel, riskDetail) := currentRisk finalScore in
  Some {| finalScore := finalScore;
          riskLevel := riskLevel;
          riskDetail := riskDetail;
          creditScore := creditScore;
          propertyScore := propertyScore;
          interestRiskScore := interestRiskScore;
          currentDcsr := currentDcsr;
          simulatedDcsr := simulatedDcsr;
          simulatedRiskLevel := simulatedRiskLevel;
          simulatedRiskDetail := simulatedRiskDetail;
          simulatedRepayment := simulatedRepayment;
          worstCaseVacancyDcsr := worstCaseVacancyDcsr;
          vacancyRiskLevel := vacancyRiskLevel;
          vacancyRiskDetail := vacancyRiskDetail;
          worstCaseVacancyRate := WORST_CASE_VACANCY_RATE |}.

End MultiFactor.

(** ** Definitions used to state the properties *)

(** The input of the multi-factor scorer that carries the same quantities
    as a form object of RiskCalculator.js; the two interest rates have no
    counterpart there and are given separately. *)
Definition asMultiFactorInput
    (d : RiskCalculator.FormData) (interestRate simulatedInterestRate : Q)
    : MultiFactor.Input :=
  {| MultiFactor.annualIncome := RiskCalculator.annualIncomeDebtor d;
     MultiFactor.annualRepayment := RiskCalculator.annualRepayment d;
     MultiFactor.totalDebt := RiskCalculator.loanAmount d;
     MultiFactor.annualRentIncome := RiskCalculator.annualRentalIncomeGross d;
     MultiFactor.expenseRate := RiskCalculator.annualExpensesRatio d;
     MultiFactor.vacancyRate := RiskCalculator.vacancyRateAssumption d;
     MultiFactor.interestRate := interestRate;
     MultiFactor.simulatedInterestRate := simulatedInterestRate;
     MultiFactor.otherDebtRatio := RiskCalculator.otherDebtsRatio d |}.

(** The first worked example with its vacancy rate raised to 0.25; the
    example leaves the simulated interest rate open. *)
Definition example2Input (simulatedInterestRate : Q) : MultiFactor.Input :=
  {| MultiFactor.annualIncome := 5000000;
     MultiFactor.annualRepayment := 1000000;
     MultiFactor.totalDebt := 30000000;
     MultiFactor.annualRentIncome := 2000000;
     MultiFactor.expenseRate := 0.3;
     MultiFactor.vacancyRate := 0.25;
     MultiFactor.interestRate := 0.03;
     MultiFactor.simulatedInterestRate := simulatedInterestRate;
     MultiFactor.otherDebtRatio := 0.1 |}.

(** [{ ...input, annualIncome: v }] *)
Definition withAnnualIncome (i : MultiFactor.Input) (v : Q) : MultiFactor.Input :=
  {| MultiFactor.annualIncome := v;
     MultiFactor.annualRepayment := MultiFactor.annualRepayment i;
     MultiFactor.totalDebt := MultiFactor.totalDebt i;
     MultiFactor.annualRentIncome := MultiFactor.annualRentIncome i;
     MultiFactor.expenseRate := MultiFactor.expenseRate i;
     MultiFactor.vacancyRate := MultiFactor.vacancyRate i;
     MultiFactor.interestRate := MultiFactor.interestRate i;
     MultiFactor.simulatedInterestRate := MultiFactor.simulatedInterestRate i;
     MultiFactor.otherDebtRatio := MultiFactor.otherDebtRatio i |}.

(** The score of the DSR/DCR scorer as the written description gives it:
    the base score is [floor(DSR * 150)] and the only clamp is the last
    step.  It is compared with [RiskCalculator.calculateRealEstateRisk]
    below. *)
Definition lateClampScore
    (data : RiskCalculator.FormData) (repaymentOverride : option Q) : option Q :=
  let annualRepayment := RiskCalculator.effectiveRepayment data repaymentOverride in
  if JS.strict_eq (RiskCalculator.annualIncomeDebtor data) 0 then Some 100
  else
    let* dsr := JS.div annualRepayment (RiskCalculator.annualIncomeDebtor data) in
    let baseScore := JS.floor (dsr * 150) in
    let* dcr :=
      RiskCalculator.debtCoverage (RiskCalculator.netIncome data) annualRepayment in
    let baseScore := fst (RiskCalculator.adjustByDcr baseScore dcr) in
    let baseScore :=
      baseScore + JS.floor (RiskCalculator.otherDebtsRatio data * 30) in
    Some (JS.max 0 (JS.min 100 baseScore)).

(** The debt-service coverage ratio as the written description gives it,
    over the larger of the repayment and 1. *)
Definition maxDenominatorDcsr (noi annualRepayment : Q) : option Q :=
  JS.div noi (JS.max annualRepayment 1).

(** A borrower who earns exactly what is repaid, on a well-covered property. *)
Definition fullDsrData : RiskCalculator.FormData :=
  {| RiskCalculator.annualIncomeDebtor := 1000000;
     RiskCalculator.annualRepayment := 1000000;
     RiskCalculator.loanAmount := 30000000;
     RiskCalculator.annualRentalIncomeGross := 4000000;
     RiskCalculator.annualExpensesRatio := 0.3;
     RiskCalculator.vacancyRateAssumption := 0.1;
     RiskCalculator.otherDebtsRatio := 0.1 |}.

(** A repayment strictly between 0 and 1. *)
Definition smallRepaymentInput : MultiFactor.Input :=
  {| MultiFactor.annualIncome := 5000000;
     MultiFactor.annualRepayment := 0.5;
     MultiFactor.totalDebt := 0;
     MultiFactor.annualRentIncome := 1;
     MultiFactor.expenseRate := 0;
     MultiFactor.vacancyRate := 0;
     MultiFactor.interestRate := 0.03;
     MultiFactor.simulatedInterestRate := 0.04;
     MultiFactor.otherDebtRatio := 0.1 |}.

(** The initial input with the income removed. *)
Definition zeroIncomeInput : MultiFactor.Input :=
  withAnnualIncome MultiFactor.initialInput 0.

(** A form without borrower income, and one without repayment. *)
Definition zeroIncomeData : RiskCalculator.FormData :=
  {| RiskCalculator.annualIncomeDebtor := 0;
     RiskCalculator.annualRepayment := 1000000;
     RiskCalculator.loanAmount := 30000000;
     RiskCalculator.annualRentalIncomeGross := 2000000;
     RiskCalculator.annualExpensesRatio := 0.3;
     RiskCalculator.vacancyRateAssumption := 0.1;
     RiskCalculator.otherDebtsRatio := 0.1 |}.

Definition zeroRepaymentData : RiskCalculator.FormData :=
  {| RiskCalculator.annualIncomeDebtor := 5000000;
     RiskCalculator.annualRepayment := 0;
     RiskCalculator.loanAmount := 30000000;
     RiskCalculator.annualRentalIncomeGross := 2000000;
     RiskCalculator.annualExpensesRatio := 0.3;
     RiskCalculator.vacancyRateAssumption := 0.1;
     RiskCalculator.otherDebtsRatio := 0.1 |}.

(** ** Presentation code of the first application *)

Module Gauge.






Definition badgeGreen : string := "bg-green-100 text-green-800".
Definition badgeYellow : string := "bg-yellow-100 text-yellow-800".
Definition badgeRed : string := "bg-red-100 text-red-800".

(** The colour classes of a level badge; the same conditional is written
    out for the current level and for each of the two simulations. *)
Definition levelBadge (level : string) : string :=
  if String.eqb level "低" then badgeGreen
  else if String.eqb level "中" then badgeYellow
  else badgeRed.

End Gauge.

(** ** Presentation code of the second application (App.jsx) *)

Module ResultScreen.

Record RiskStyle := mkRiskStyle {
  color : string;
  icon : string;
  background : string;
  level : string
}.

Definition styleVeryHigh : RiskStyle :=
  {| color := "#dc3545"; icon := "🚨"; background := "#f8d7da";
     level := "非常に高い" |}.
Definition styleHigh : RiskStyle :=
  {| color := "#ffc107"; icon := "⚠️"; background := "#fff3cd";
     level := "高い" |}.
Definition styleMedium : RiskStyle :=
  {| color := "#007bff"; icon := "🔍"; background := "#cfe2ff";
     level := "中程度" |}.
Definition styleLow : RiskStyle :=
  {| color := "#28a745"; icon := "✅"; background := "#d1e7dd";
     level := "低い" |}.

Definition getRiskStyle (score : Q) : RiskStyle :=
  if score >=? 70 then styleVeryHigh
  else if score >=? 50 then styleHigh
  else if score >=? 30 then styleMedium
  else styleLow.

(** [result.annualNetIncome ? result.annualNetIncome.toLocaleString() : 'N/A']:
    the formatted amount is represented by the number it formats. *)
Inductive NoiText :=
| NoiAmount (noi : Q)
| NoiNotAvailable.

Definition noiText (result : RiskCalculator.RiskResult) : NoiText :=
  match RiskCalculator.annualNetIncome result with
  | Some noi => if Qeq_bool noi 0 then NoiNotAvailable else NoiAmount noi
  | None => NoiNotAvailable
  end.

(** The value of [newRepayment && (<p>...</p>)]: the left operand itself
    when it is [null] or zero, the paragraph otherwise. *)
Inductive RepaymentLine :=
| RepaymentNull
| RepaymentZero
| RepaymentParagraph (amount : Q).

Definition repaymentLine (newRepayment : option Q) : RepaymentLine :=
  match newRepayment with
  | None => RepaymentNull
  | Some amount =>
      if Qeq_bool amount 0 then RepaymentZero else RepaymentParagraph amount
  end.

(** What a [ResultCard] shows. *)
Record Card := mkCard {
  title : string;
  style : RiskStyle;
  shownScore : Q;
  shownLevel : string;
  shownDcr : Q;
  shownNoi : NoiText;
  shownDetail : string;
  shownRepayment : RepaymentLine
}.

Definition ResultCard
    (title : string) (result : RiskCalculator.RiskResult)
    (newRepayment : option Q) : Card :=
  {| title := title;
     style := getRiskStyle (RiskCalculator.score result);
     shownScore := RiskCalculator.score result;
     shownLevel := RiskCalculator.level result;
     shownDcr := RiskCalculator.dcrValue result;
     shownNoi := noiText result;
     shownDetail := RiskCalculator.dcrDetail result;
     shownRepayment := repaymentLine newRepayment |}.

(** The three cards of the result screen, in the order they are rendered. *)
Definition ResultScreen (results : RiskCalculator.Simulation)
    : Card * Card * Card :=
  (ResultCard "現状のベースリスク" (RiskCalculator.original results) None,
   ResultCard "空室率悪化シナリオ (20%想定)" (RiskCalculator.vacancy results) None,
   ResultCard "金利上昇シナリオ (2%増想定)" (RiskCalculator.rateHike results)
     (Some (RiskCalculator.newRepaymentAmount results))).

(** [handleSubmit] followed by the rendering of its result: the driver is
    called with the form alone, so both stress parameters take their
    defaults.  The property [remainingYears] that the handler adds to the
    form is read by nothing and is left out. *)
Definition handleSubmit (formData : RiskCalculator.FormData)
    : option (Card * Card * Card) :=
  let* calculationResults :=
    RiskCalculator.runWorstCaseSimulation formData None None in
  Some (ResultScreen calculationResults).

End ResultScreen.

(** [{ ...input, simulatedInterestRate: v }] and [{ ...input, vacancyRate: v }] *)
Definition withSimulatedInterestRate
    (i : MultiFactor.Input) (v : Q) : MultiFactor.Input :=
  {| MultiFactor.annualIncome := MultiFactor.annualIncome i;
     MultiFactor.annualRepayment := MultiFactor.annualRepayment i;
     MultiFactor.totalDebt := MultiFactor.totalDebt i;
     MultiFactor.annualRentIncome := MultiFactor.annualRentIncome i;
     MultiFactor.expenseRate := MultiFactor.expenseRate i;
     MultiFactor.vacancyRate := MultiFactor.vacancyRate i;
     MultiFactor.interestRate := MultiFactor.interestRate i;
     MultiFactor.simulatedInterestRate := v;
     MultiFactor.otherDebtRatio := MultiFactor.otherDebtRatio i |}.

Definition withVacancy (i : MultiFactor.Input) (v : Q) : MultiFactor.Input :=
  {| MultiFactor.annualIncome := MultiFactor.annualIncome i;
     MultiFactor.annualRepayment := MultiFactor.annualRepayment i;
     MultiFactor.totalDebt := MultiFactor.totalDebt i;
     MultiFactor.annualRentIncome := MultiFactor.annualRentIncome i;
     MultiFactor.expenseRate := MultiFactor.expenseRate i;
     MultiFactor.vacancyRate := v;
     MultiFactor.interestRate := MultiFactor.interestRate i;
     MultiFactor.simulatedInterestRate := MultiFactor.simulatedInterestRate i;
     MultiFactor.otherDebtRatio := MultiFactor.otherDebtRatio i |}.

(** The input on which every penalty of the multi-factor scorer applies. *)
Definition everyPenaltyInput : MultiFactor.Input :=
  {| MultiFactor.annualIncome := 1000000;
     MultiFactor.annualRepayment := 1000000;
     MultiFactor.totalDebt := 10000000;
     MultiFactor.annualRentIncome := 1000000;
     MultiFactor.expenseRate := 0.5;
     MultiFactor.vacancyRate := 0.2;
     MultiFactor.interestRate := 0.06;
     MultiFactor.simulatedInterestRate := 0.07;
     MultiFactor.otherDebtRatio := 0.3 |}.

(** ** Worked evaluations *)

Example initialFormData_score :
  option_map RiskCalculator.score
    (RiskCalculator.calculateRealEstateRisk RiskCalculator.initialFormData None)
  = Some 23.
Proof. vm_compute. reflexivity. Qed.

Example initialInput_scores :
  option_map (fun a => (MultiFactor.creditScore a, MultiFactor.propertyScore a,
                        MultiFactor.interestRiskScore a, MultiFactor.finalScore a,
                        MultiFactor.riskLevel a))
    (MultiFactor.calculateRiskScore MultiFactor.initialInput)
  = Some (20, 40, 30, 90, MultiFactor.levelLow).
Proof. vm_compute. reflexivity. Qed.

(** ** Comparisons, fallbacks and checked division *)

Section NumberFacts.

Variables x y : Q.

Lemma ltb_true_iff : (x <? y) = true <-> x < y.
Proof.
  unfold JS.ltb. rewrite negb_true_iff, <- not_true_iff_false, Qle_bool_iff.
  split; [apply Qnot_le_lt | apply Qlt_not_le].
Qed.

Lemma ltb_false_iff : (x <? y) = false <-> y <= x.
Proof.
  unfold JS.ltb. rewrite negb_false_iff. apply Qle_bool_iff.
Qed.

Lemma geb_true_iff : (x >=? y) = true <-> y <= x.
Proof. apply Qle_bool_iff. Qed.

Lemma or_else_zero : x == 0 -> x ||| y = y.
Proof.
  intros H. unfold JS.or_else. now rewrite (Qeq_eq_bool _ _ H).
Qed.

Lemma or_else_nonzero : ~ x == 0 -> x ||| y = x.
Proof.
  intros H. unfold JS.or_else.
  destruct (Qeq_bool x 0) eqn:E; [|reflexivity].
  now apply Qeq_bool_eq in E.
Qed.

Lemma or_else_one_nonzero : ~ (x ||| 1) == 0.
Proof.
  unfold JS.or_else. destruct (Qeq_bool x 0) eqn:E.
  - discriminate.
  - now apply Qeq_bool_neq.
Qed.

Lemma div_nonzero : ~ y == 0 -> JS.div x y = Some (x / y).
Proof.
  intros H. unfold JS.div.
  destruct (Qeq_bool y 0) eqn:E; [|reflexivity].
  now apply Qeq_bool_eq in E.
Qed.

Lemma min_le_l : JS.min x y <= x.
Proof.
  unfold JS.min. destruct (Qle_bool x y) eqn:E.
  - apply Qle_refl.
  - apply Qlt_le_weak, Qnot_le_lt. intros H.
    apply Qle_bool_iff in H. congruence.
Qed.

Lemma max_ge_l : x <= JS.max x y.
Proof.
  unfold JS.max. destruct (Qle_bool x y) eqn:E.
  - now apply Qle_bool_iff.
  - apply Qle_refl.
Qed.

Lemma max_cases : JS.max x y = x \/ JS.max x y = y.
Proof. unfold JS.max. destruct (Qle_bool x y); auto. Qed.

End NumberFacts.

(** The final clamp of the DSR/DCR scorer lands in the range. *)
Lemma clamp_in_range (b : Q) : 0 <= JS.max 0 (JS.min 100 b) <= 100.
Proof.
  split.
  - apply max_ge_l.
  - destruct (max_cases 0 (JS.min 100 b)) as [-> | ->].
    + discriminate.
    + apply min_le_l.
Qed.

(** Comparisons do not see the representation of a rational. *)
Lemma ltb_compat (x x' y y' : Q) :
  x == x' -> y == y' -> (x <? y) = (x' <? y').
Proof.
  intros Hx Hy. unfold JS.ltb. now rewrite Hx, Hy.
Qed.

Lemma gtb_compat (x x' y y' : Q) :
  x == x' -> y == y' -> (x >? y) = (x' >? y').
Proof.
  intros Hx Hy. unfold JS.gtb. now apply ltb_compat.
Qed.

(** ** The multi-factor scorer: sub-scores and totality *)

Ltac decide_constants := vm_compute; intuition discriminate.

Lemma creditScoreOf_range (d t o : Q) :
  0 <= MultiFactor.creditScoreOf d t o <= 30.
Proof.
  unfold MultiFactor.creditScoreOf.
  destruct (d >? 0.3), (t >? 5), (o >? 0.2); decide_constants.
Qed.

Lemma propertyScoreOf_range (c e v : Q) :
  0 <= MultiFactor.propertyScoreOf c e v <= 40.
Proof.
  unfold MultiFactor.propertyScoreOf.
  destruct (c <? 1.2), (c <? 1.0), (e >? 0.4), (v >? 0.15); decide_constants.
Qed.

Lemma interestRiskScoreOf_range (r t : Q) :
  0 <= MultiFactor.interestRiskScoreOf r t <= 30.
Proof.
  unfold MultiFactor.interestRiskScoreOf.
  destruct (r >? 0.04), (r >? 0.05), (t >? 8); decide_constants.
Qed.

Lemma creditScoreOf_compat (d d' t t' o : Q) :
  d == d' -> t == t' ->
  MultiFactor.creditScoreOf d t o = MultiFactor.creditScoreOf d' t' o.
Proof.
  intros Hd Ht. unfold MultiFactor.creditScoreOf.
  now rewrite (gtb_compat d d' 0.3 0.3 Hd (Qeq_refl _)),
              (gtb_compat t t' 5 5 Ht (Qeq_refl _)).
Qed.

Lemma interestRiskScoreOf_compat (r t t' : Q) :
  t == t' ->
  MultiFactor.interestRiskScoreOf r t = MultiFactor.interestRiskScoreOf r t'.
Proof.
  intros Ht. unfold MultiFactor.interestRiskScoreOf.
  now rewrite (gtb_compat t t' 8 8 Ht (Qeq_refl _)).
Qed.

(** The scorer returns for every input, and each field of interest is the
    corresponding expression of the source over unchecked quotients. *)
Lemma calculateRiskScore_some (input : MultiFactor.Input) :
  let income := MultiFactor.annualIncome input ||| 1 in
  let d := MultiFactor.annualRepayment input / income in
  let t := MultiFactor.totalDebt input / income in
  let c := MultiFactor.noi input / (MultiFactor.annualRepayment input ||| 1) in
  exists a,
    MultiFactor.calculateRiskScore input = Some a
    /\ MultiFactor.debtToIncomeRatio input = Some d
    /\ MultiFactor.totalDebtToIncomeRatio input = Some t
    /\ MultiFactor.creditScore a
       = MultiFactor.creditScoreOf d t (MultiFactor.otherDebtRatio input)
    /\ MultiFactor.currentDcsr a = c
    /\ MultiFactor.propertyScore a
       = MultiFactor.propertyScoreOf c
           (MultiFactor.expenseRate input) (MultiFactor.vacancyRate input)
    /\ MultiFactor.interestRiskScore a
       = MultiFactor.interestRiskScoreOf (MultiFactor.interestRate input) t
    /\ MultiFactor.finalScore a
       = MultiFactor.creditScore a + MultiFactor.propertyScore a
         + MultiFactor.interestRiskScore a
    /\ MultiFactor.riskLevel a
       = fst (MultiFactor.currentRisk (MultiFactor.finalScore a)).
Proof.
  intros income d t c.
  unfold MultiFactor.calculateRiskScore, MultiFactor.debtToIncomeRatio,
    MultiFactor.totalDebtToIncomeRatio, MultiFactor.dcsr.
  rewrite !div_nonzero by apply or_else_one_nonzero.
  cbn [JS.bind].
  destruct (MultiFactor.simulatedRisk _ _) as [sl sd].
  destruct (MultiFactor.vacancyRisk _) as [vl vd].
  destruct (MultiFactor.currentRisk _) as [rl rd] eqn:Hrisk.
  eexists. split; [reflexivity|].
  cbn [MultiFactor.creditScore MultiFactor.propertyScore
       MultiFactor.interestRiskScore MultiFactor.finalScore
       MultiFactor.currentDcsr MultiFactor.riskLevel].
  rewrite Hrisk. repeat split; reflexivity.
Qed.

(** ** The DSR/DCR scorer: the two paths *)

Lemma calculateRealEstateRisk_zero_income
    (data : RiskCalculator.FormData) (repaymentOverride : option Q) :
  RiskCalculator.annualIncomeDebtor data == 0 ->
  RiskCalculator.calculateRealEstateRisk data repaymentOverride
  = Some RiskCalculator.fatalResult.
Proof.
  intros H. unfold RiskCalculator.calculateRealEstateRisk, JS.strict_eq.
  assert (E : Qeq_bool (RiskCalculator.annualIncomeDebtor data) 0.0 = true).
  { apply Qeq_bool_iff. rewrite H. reflexivity. }
  now rewrite E.
Qed.

Lemma debtCoverage_some (n r : Q) :
  RiskCalculator.debtCoverage n r = Some (if r >? 0 then n / r else 999.0).
Proof.
  unfold RiskCalculator.debtCoverage.
  destruct (r >? 0) eqn:E; [|reflexivity].
  apply div_nonzero. intros H.
  apply ltb_true_iff in E. rewrite H in E. discriminate.
Qed.

(** With a borrower income other than zero the scorer returns the object
    built from the unchecked quotients. *)
Lemma calculateRealEstateRisk_nonzero_income
    (data : RiskCalculator.FormData) (repaymentOverride : option Q) :
  ~ RiskCalculator.annualIncomeDebtor data == 0 ->
  let repayment := RiskCalculator.effectiveRepayment data repaymentOverride in
  let dsr := repayment / RiskCalculator.annualIncomeDebtor data in
  let noi := RiskCalculator.netIncome data in
  let dcr := if repayment >? 0 then noi / repayment else 999.0 in
  let adjusted :=
    RiskCalculator.adjustByDcr (RiskCalculator.initialBaseScore dsr) dcr in
  let final :=
    JS.max 0 (JS.min 100
      (fst adjusted + JS.floor (RiskCalculator.otherDebtsRatio data * 30))) in
  RiskCalculator.calculateRealEstateRisk data repaymentOverride
  = Some {| RiskCalculator.score := final;
            RiskCalculator.level := RiskCalculator.levelOf final;
            RiskCalculator.dcrComment := RiskCalculator.DcrCommentOf dcr;
            RiskCalculator.dcrDetail := snd adjusted;
            RiskCalculator.dcrValue := dcr;
            RiskCalculator.annualNetIncome := Some noi |}.
Proof.
  intros H repayment dsr noi dcr adjusted final.
  unfold RiskCalculator.calculateRealEstateRisk, JS.strict_eq.
  assert (E : Qeq_bool (RiskCalculator.annualIncomeDebtor data) 0.0 = false).
  { apply not_true_iff_false. intros E. apply Qeq_bool_eq in E.
    apply H. rewrite E. reflexivity. }
  rewrite E, (div_nonzero _ _ H), debtCoverage_some. cbn [JS.bind].
  fold repayment dsr noi dcr adjusted.
  destruct adjusted as [b detail] eqn:Hadj. reflexivity.
Qed.

(** The scorer returns for every form and every override. *)
Lemma calculateRealEstateRisk_total
    (data : RiskCalculator.FormData) (repaymentOverride : option Q) :
  exists r,
    RiskCalculator.calculateRealEstateRisk data repaymentOverride = Some r
    /\ 0 <= RiskCalculator.score r <= 100.
Proof.
  destruct (Qeq_dec (RiskCalculator.annualIncomeDebtor data) 0) as [H | H].
  - rewrite (calculateRealEstateRisk_zero_income _ _ H).
    eexists. split; [reflexivity|]. decide_constants.
  - rewrite (calculateRealEstateRisk_nonzero_income _ _ H).
    eexists. split; [reflexivity|]. apply clamp_in_range.
Qed.

(** The final score of the multi-factor scorer exists and is in range. *)
Lemma calculateRiskScore_total (input : MultiFactor.Input) :
  exists a,
    MultiFactor.calculateRiskScore input = Some a
    /\ 0 <= MultiFactor.finalScore a <= 100.
Proof.
  destruct (calculateRiskScore_some input)
    as (a & Ha & _ & _ & Hc & _ & Hp & Hi & Hf & _).
  exists a. split; [exact Ha|].
  rewrite Hf, Hc, Hp, Hi.
  pose proof (creditScoreOf_range
                (MultiFactor.annualRepayment input
                 / (MultiFactor.annualIncome input ||| 1))
                (MultiFactor.totalDebt input
                 / (MultiFactor.annualIncome input ||| 1))
                (MultiFactor.otherDebtRatio input)) as [? ?].
  pose proof (propertyScoreOf_range
                (MultiFactor.noi input
                 / (MultiFactor.annualRepayment input ||| 1))
                (MultiFactor.expenseRate input)
                (MultiFactor.vacancyRate input)) as [? ?].
  pose proof (interestRiskScoreOf_range
                (MultiFactor.interestRate input)
                (MultiFactor.totalDebt input
                 / (MultiFactor.annualIncome input ||| 1))) as [? ?].
  split; lra.
Qed.

(** ** Properties *)

(** C1.  For every input the final score of the multi-factor scorer
    [calculateRiskScore] and the score of the DSR/DCR scorer
    [calculateRealEstateRisk] (with or without a repayment override) exist
    and lie between 0 and 100. *)
Theorem final_score_in_range :
  (forall input : MultiFactor.Input,
      exists a,
        MultiFactor.calculateRiskScore input = Some a
        /\ 0 <= MultiFactor.finalScore a <= 100)
  /\ (forall (data : RiskCalculator.FormData) (repaymentOverride : option Q),
      exists r,
        RiskCalculator.calculateRealEstateRisk data repaymentOverride = Some r
        /\ 0 <= RiskCalculator.score r <= 100).
Proof.
  split.
  - exact calculateRiskScore_total.
  - exact calculateRealEstateRisk_total.
Qed.

(** C3.  When the borrower income is exactly zero, the DSR/DCR scorer
    returns the fixed fatal object whatever the other fields and the
    override are: score 100, the fatal level text, a DCR value of 0, no
    comment, no detail and no net income. *)
Theorem zero_income_short_circuits
    (data : RiskCalculator.FormData) (repaymentOverride : option Q) :
  RiskCalculator.annualIncomeDebtor data == 0 ->
  exists r,
    RiskCalculator.calculateRealEstateRisk data repaymentOverride = Some r
    /\ RiskCalculator.score r == 100
    /\ RiskCalculator.level r
       = "致命的リスク: 主債務者の年収がゼロです。"%string
    /\ RiskCalculator.dcrValue r == 0
    /\ RiskCalculator.dcrComment r = RiskCalculator.EmptyComment
    /\ RiskCalculator.dcrDetail r = ""%string
    /\ RiskCalculator.annualNetIncome r = None.
Proof.
  intros H. exists RiskCalculator.fatalResult.
  split; [now apply calculateRealEstateRisk_zero_income|].
  repeat split; reflexivity.
Qed.

Lemma zero_income_short_circuits_witness :
  exists r,
    RiskCalculator.calculateRealEstateRisk zeroIncomeData None = Some r
    /\ RiskCalculator.score r == 100
    /\ RiskCalculator.level r
       = "致命的リスク: 主債務者の年収がゼロです。"%string
    /\ RiskCalculator.dcrValue r == 0
    /\ RiskCalculator.dcrComment r = RiskCalculator.EmptyComment
    /\ RiskCalculator.dcrDetail r = ""%string
    /\ RiskCalculator.annualNetIncome r = None.
Proof.
  apply (zero_income_short_circuits zeroIncomeData None). reflexivity.
Defined.

(** C4.  For every input of the multi-factor scorer the credit sub-score
    lies in [0,30], the property sub-score in [0,40], the interest-risk
    sub-score in [0,30], and the final score is their sum. *)
Theorem subscores_bounded_and_sum (input : MultiFactor.Input) :
  exists a,
    MultiFactor.calculateRiskScore input = Some a
    /\ 0 <= MultiFactor.creditScore a <= 30
    /\ 0 <= MultiFactor.propertyScore a <= 40
    /\ 0 <= MultiFactor.interestRiskScore a <= 30
    /\ MultiFactor.finalScore a
       = MultiFactor.creditScore a + MultiFactor.propertyScore a
         + MultiFactor.interestRiskScore a.
Proof.
  destruct (calculateRiskScore_some input)
    as (a & Ha & _ & _ & Hc & _ & Hp & Hi & Hf & _).
  exists a. split; [exact Ha|].
  split; [rewrite Hc; apply creditScoreOf_range|].
  split; [rewrite Hp; apply propertyScoreOf_range|].
  split; [rewrite Hi; apply interestRiskScoreOf_range|].
  exact Hf.
Qed.

(** C5, as stated, fails.  On the second worked example (simulated rate
    0.04, the initial one) the property sub-score is not 35, the final
    score is not 95 and the level is not the low one. *)
Lemma example2_not_as_described :
  exists a,
    MultiFactor.calculateRiskScore (example2Input 0.04) = Some a
    /\ ~ MultiFactor.propertyScore a == 35
    /\ ~ MultiFactor.finalScore a == 95
    /\ MultiFactor.riskLevel a <> "低"%string.
Proof.
  eexists. split; [vm_compute; reflexivity|].
  repeat split; vm_compute; discriminate.
Qed.

(** C5, amended.  On the first worked example with the vacancy rate raised
    to 0.25, whatever the simulated interest rate, the coverage ratio is
    1.05, so the property sub-score loses 10 for a ratio under 1.2 and 5
    for a vacancy rate over 0.15 and is 25; the credit sub-score is 20
    (total debt is six times the income), the interest-risk sub-score 30,
    the final score 75 and the level the medium one. *)
Theorem example2_scores (simulatedInterestRate : Q) :
  exists a,
    MultiFactor.calculateRiskScore (example2Input simulatedInterestRate) = Some a
    /\ MultiFactor.currentDcsr a == 1.05
    /\ MultiFactor.creditScore a == 20
    /\ MultiFactor.propertyScore a == 25
    /\ MultiFactor.interestRiskScore a == 30
    /\ MultiFactor.finalScore a == 75
    /\ MultiFactor.riskLevel a = "中"%string.
Proof.
  destruct (calculateRiskScore_some (example2Input simulatedInterestRate))
    as (a & Ha & _ & _ & Hc & Hd & Hp & Hi & Hf & Hl).
  exists a. split; [exact Ha|].
  rewrite Hl, Hf, Hc, Hp, Hi, Hd.
  repeat split; vm_compute; reflexivity.
Qed.

(** The fallback denominator [r || 1] is the larger of [r] and 1 exactly
    when [r] is zero or at least 1. *)
Lemma or_else_one_is_max_iff (r : Q) :
  (r ||| 1) == JS.max r 1 <-> (r == 0 \/ 1 <= r).
Proof.
  unfold JS.or_else, JS.max.
  destruct (Qeq_bool r 0) eqn:Ez; destruct (Qle_bool r 1) eqn:El.
  - apply Qeq_bool_eq in Ez. split; [now left | reflexivity].
  - apply Qeq_bool_eq in Ez. split; [now left | intros _].
    exfalso. apply not_true_iff_false in El. apply El, Qle_bool_iff.
    rewrite Ez. discriminate.
  - apply Qeq_bool_neq in Ez. apply Qle_bool_iff in El. split.
    + intros H. right. rewrite H. apply Qle_refl.
    + intros [H | H]; [contradiction | now apply Qle_antisym].
  - split; [intros _ | reflexivity].
    right. apply Qlt_le_weak, Qnot_le_lt. intros H.
    apply Qle_bool_iff in H. congruence.
Qed.

(** C7, as stated, fails.  With a repayment of 0.5 the scorer divides the
    net income by 0.5, not by max(0.5, 1) = 1: the coverage ratio is 2
    where the maximum would give 1, and the property sub-score is 40 where
    the maximum would lead to 30. *)
Lemma dcsr_denominator_is_not_max :
  exists a q,
    MultiFactor.calculateRiskScore smallRepaymentInput = Some a
    /\ maxDenominatorDcsr (MultiFactor.noi smallRepaymentInput)
         (MultiFactor.annualRepayment smallRepaymentInput) = Some q
    /\ ~ MultiFactor.currentDcsr a == q
    /\ MultiFactor.currentDcsr a == 2 /\ q == 1
    /\ MultiFactor.propertyScore a == 40
    /\ MultiFactor.propertyScoreOf q
         (MultiFactor.expenseRate smallRepaymentInput)
         (MultiFactor.vacancyRate smallRepaymentInput) == 30.
Proof.
  do 2 eexists.
  split; [vm_compute; reflexivity|].
  split; [vm_compute; reflexivity|].
  repeat split; vm_compute; (reflexivity || discriminate).
Qed.

(** C7, amended.  For every input the property sub-score is computed from
    NOI = rent x (1 - vacancy rate) x (1 - expense rate) and
    DCSR = NOI / d, where d is the repayment when it is not zero and 1
    when it is zero; d is the maximum of the repayment and 1 exactly when
    the repayment is zero or at least 1. *)
Theorem property_score_uses_noi_and_fallback_dcsr (input : MultiFactor.Input) :
  exists a,
    MultiFactor.calculateRiskScore input = Some a
    /\ MultiFactor.currentDcsr a
       == MultiFactor.annualRentIncome input
          * (1 - MultiFactor.vacancyRate input)
          * (1 - MultiFactor.expenseRate input)
          / (if Qeq_bool (MultiFactor.annualRepayment input) 0
             then 1 else MultiFactor.annualRepayment input)
    /\ MultiFactor.propertyScore a
       = MultiFactor.propertyScoreOf (MultiFactor.currentDcsr a)
           (MultiFactor.expenseRate input) (MultiFactor.vacancyRate input)
    /\ ((if Qeq_bool (MultiFactor.annualRepayment input) 0
         then 1 else MultiFactor.annualRepayment input)
        == JS.max (MultiFactor.annualRepayment input) 1
        <-> (MultiFactor.annualRepayment input == 0
             \/ 1 <= MultiFactor.annualRepayment input)).
Proof.
  destruct (calculateRiskScore_some input)
    as (a & Ha & _ & _ & _ & Hd & Hp & _).
  exists a. split; [exact Ha|].
  split; [rewrite Hd; reflexivity|].
  split; [rewrite Hd; exact Hp|].
  apply or_else_one_is_max_iff.
Qed.

(** C10.  When the income is zero the multi-factor scorer still returns an
    ordinary assessment, and no division by zero is evaluated: both income
    ratios are taken over 1, so the debt-to-income ratio is the repayment
    and the total-debt-to-income ratio is the total debt, the sub-scores
    are computed from them as usual, the final score is their sum within
    [0,100], and the whole assessment is the one of the same input with an
    income of 1. *)
Theorem zero_income_scored_over_one (input : MultiFactor.Input) :
  MultiFactor.annualIncome input == 0 ->
  exists a d t,
    MultiFactor.calculateRiskScore input = Some a
    /\ MultiFactor.debtToIncomeRatio input = Some d
    /\ d == MultiFactor.annualRepayment input
    /\ MultiFactor.totalDebtToIncomeRatio input = Some t
    /\ t == MultiFactor.totalDebt input
    /\ MultiFactor.creditScore a
       = MultiFactor.creditScoreOf (MultiFactor.annualRepayment input)
           (MultiFactor.totalDebt input) (MultiFactor.otherDebtRatio input)
    /\ MultiFactor.interestRiskScore a
       = MultiFactor.interestRiskScoreOf (MultiFactor.interestRate input)
           (MultiFactor.totalDebt input)
    /\ MultiFactor.propertyScore a
       = MultiFactor.propertyScoreOf (MultiFactor.currentDcsr a)
           (MultiFactor.expenseRate input) (MultiFactor.vacancyRate input)
    /\ MultiFactor.finalScore a
       = MultiFactor.creditScore a + MultiFactor.propertyScore a
         + MultiFactor.interestRiskScore a
    /\ 0 <= MultiFactor.finalScore a <= 100
    /\ MultiFactor.calculateRiskScore input
       = MultiFactor.calculateRiskScore (withAnnualIncome input 1).
Proof.
  intros Hzero.
  destruct (calculateRiskScore_some input)
    as (a & Ha & Hd & Ht & Hc & Hcur & Hp & Hi & Hf & _).
  rewrite (or_else_zero _ 1 Hzero) in Hd, Ht, Hc, Hi.
  assert (Ed : MultiFactor.annualRepayment input / 1
               == MultiFactor.annualRepayment input) by (field; discriminate).
  assert (Et : MultiFactor.totalDebt input / 1
               == MultiFactor.totalDebt input) by (field; discriminate).
  exists a, (MultiFactor.annualRepayment input / 1),
    (MultiFactor.totalDebt input / 1).
  split; [exact Ha|].
  split; [exact Hd|]. split; [exact Ed|].
  split; [exact Ht|]. split; [exact Et|].
  split; [rewrite Hc; now apply creditScoreOf_compat|].
  split; [rewrite Hi; now apply interestRiskScoreOf_compat|].
  split; [rewrite Hcur; exact Hp|].
  split; [exact Hf|].
  split.
  - destruct (calculateRiskScore_total input) as (a' & Ha' & Hr).
    rewrite Ha in Ha'. now injection Ha' as <-.
  - unfold MultiFactor.calculateRiskScore, MultiFactor.debtToIncomeRatio,
      MultiFactor.totalDebtToIncomeRatio.
    rewrite (or_else_zero _ 1 Hzero). reflexivity.
Qed.

Lemma zero_income_scored_over_one_witness :
  exists a d t,
    MultiFactor.calculateRiskScore zeroIncomeInput = Some a
    /\ MultiFactor.debtToIncomeRatio zeroIncomeInput = Some d
    /\ d == MultiFactor.annualRepayment zeroIncomeInput
    /\ MultiFactor.totalDebtToIncomeRatio zeroIncomeInput = Some t
    /\ t == MultiFactor.totalDebt zeroIncomeInput
    /\ MultiFactor.creditScore a
       = MultiFactor.creditScoreOf (MultiFactor.annualRepayment zeroIncomeInput)
           (MultiFactor.totalDebt zeroIncomeInput)
           (MultiFactor.otherDebtRatio zeroIncomeInput)
    /\ MultiFactor.interestRiskScore a
       = MultiFactor.interestRiskScoreOf (MultiFactor.interestRate zeroIncomeInput)
           (MultiFactor.totalDebt zeroIncomeInput)
    /\ MultiFactor.propertyScore a
       = MultiFactor.propertyScoreOf (MultiFactor.currentDcsr a)
           (MultiFactor.expenseRate zeroIncomeInput)
           (MultiFactor.vacancyRate zeroIncomeInput)
    /\ MultiFactor.finalScore a
       = MultiFactor.creditScore a + MultiFactor.propertyScore a
         + MultiFactor.interestRiskScore a
    /\ 0 <= MultiFactor.finalScore a <= 100
    /\ MultiFactor.calculateRiskScore zeroIncomeInput
       = MultiFactor.calculateRiskScore (withAnnualIncome zeroIncomeInput 1).
Proof.
  apply (zero_income_scored_over_one zeroIncomeInput). reflexivity.
Defined.

(** *** The base score and the two clamps *)

Lemma min_compat (x y y' : Q) : y == y' -> JS.min x y == JS.min x y'.
Proof.
  intros H. unfold JS.min. rewrite H.
  destruct (Qle_bool x y'); [reflexivity | exact H].
Qed.

Lemma max_compat (x y y' : Q) : y == y' -> JS.max x y == JS.max x y'.
Proof.
  intros H. unfold JS.max. rewrite H.
  destruct (Qle_bool x y'); [exact H | reflexivity].
Qed.

Lemma adjustByDcr_compat (b b' dcr : Q) :
  b == b' ->
  fst (RiskCalculator.adjustByDcr b dcr)
  == fst (RiskCalculator.adjustByDcr b' dcr).
Proof.
  intros H. unfold RiskCalculator.adjustByDcr.
  destruct (dcr <? 1.0); [|destruct (dcr <? 1.2)]; cbn [fst]; now rewrite H.
Qed.

(** The base score is capped at 100 where it is computed. *)
Lemma initialBaseScore_cases (dsr : Q) :
  (JS.floor (dsr * 150) <= 100
   /\ RiskCalculator.initialBaseScore dsr == JS.floor (dsr * 150))
  \/ (100 < JS.floor (dsr * 150)
      /\ RiskCalculator.initialBaseScore dsr == 100).
Proof.
  unfold RiskCalculator.initialBaseScore, JS.min.
  destruct (Qle_bool 100 (JS.floor (dsr * 150))) eqn:E.
  - apply Qle_bool_iff in E.
    destruct (Qeq_dec (JS.floor (dsr * 150)) 100) as [H | H].
    + left. split; [rewrite H; apply Qle_refl | now rewrite H].
    + right. split; [|reflexivity].
      apply Qnot_le_lt. intros H'. apply H. now apply Qle_antisym.
  - left. split; [|reflexivity].
    apply Qlt_le_weak, Qnot_le_lt. intros H.
    apply Qle_bool_iff in H. congruence.
Qed.

(** C6, as stated, fails.  For a borrower whose repayment equals the income
    (DSR = 1), floor(DSR x 150) is 150 but the base score is already 100;
    after the DCR adjustment (-10) and the other-debts term (+3) the score
    is 93, where clamping only at the end would give 100. *)
Lemma base_score_is_capped_at_once :
  exists r s,
    RiskCalculator.calculateRealEstateRisk fullDsrData None = Some r
    /\ lateClampScore fullDsrData None = Some s
    /\ ~ RiskCalculator.score r == s
    /\ RiskCalculator.score r == 93 /\ s == 100
    /\ JS.floor (1000000 / 1000000 * 150) == 150
    /\ RiskCalculator.initialBaseScore (1000000 / 1000000) == 100.
Proof.
  do 2 eexists.
  split; [vm_compute; reflexivity|].
  split; [vm_compute; reflexivity|].
  repeat split; vm_compute; (reflexivity || discriminate).
Qed.

(** C6, amended.  With a borrower income other than zero and
    DSR = repayment / income, the base score is min(100, floor(DSR x 150)):
    it is floor(DSR x 150) when that is at most 100, and in that case the
    score agrees with the one clamped only at the end; it is 100 when
    floor(DSR x 150) exceeds 100.  The clamp to [0,100] is applied again
    after the DCR and other-debts adjustments. *)
Theorem base_score_capped_then_clamped
    (data : RiskCalculator.FormData) (repaymentOverride : option Q) :
  ~ RiskCalculator.annualIncomeDebtor data == 0 ->
  let dsr :=
    RiskCalculator.effectiveRepayment data repaymentOverride
    / RiskCalculator.annualIncomeDebtor data in
  exists r,
    RiskCalculator.calculateRealEstateRisk data repaymentOverride = Some r
    /\ RiskCalculator.score r
       = JS.max 0 (JS.min 100
           (fst (RiskCalculator.adjustByDcr
                   (RiskCalculator.initialBaseScore dsr)
                   (RiskCalculator.dcrValue r))
            + JS.floor (RiskCalculator.otherDebtsRatio data * 30)))
    /\ RiskCalculator.initialBaseScore dsr <= 100
    /\ ((JS.floor (dsr * 150) <= 100
         /\ RiskCalculator.initialBaseScore dsr == JS.floor (dsr * 150)
         /\ exists s, lateClampScore data repaymentOverride = Some s
                      /\ RiskCalculator.score r == s)
        \/ (100 < JS.floor (dsr * 150)
            /\ RiskCalculator.initialBaseScore dsr == 100)).
Proof.
  intros H dsr.
  pose proof (calculateRealEstateRisk_nonzero_income data repaymentOverride H)
    as Hcalc. cbv zeta in Hcalc. fold dsr in Hcalc.
  eexists. split; [exact Hcalc|].
  cbn [RiskCalculator.score RiskCalculator.dcrValue].
  split; [reflexivity|].
  split; [apply min_le_l|].
  destruct (initialBaseScore_cases dsr) as [[Hle Heq] | [Hlt Heq]].
  - left. split; [exact Hle|]. split; [exact Heq|].
    unfold lateClampScore, JS.strict_eq.
    assert (E : Qeq_bool (RiskCalculator.annualIncomeDebtor data) 0 = false).
    { apply not_true_iff_false. intros E. now apply Qeq_bool_eq in E. }
    rewrite E, (div_nonzero _ _ H), debtCoverage_some. cbn [JS.bind].
    fold dsr. eexists. split; [reflexivity|].
    apply max_compat, min_compat.
    apply Qplus_comp; [|reflexivity].
    now apply adjustByDcr_compat.
  - right. split; assumption.
Qed.

Lemma base_score_capped_then_clamped_witness :
  let dsr := 1000000 / 1000000 in
  exists r,
    RiskCalculator.calculateRealEstateRisk fullDsrData None = Some r
    /\ RiskCalculator.score r
       = JS.max 0 (JS.min 100
           (fst (RiskCalculator.adjustByDcr
                   (RiskCalculator.initialBaseScore dsr)
                   (RiskCalculator.dcrValue r))
            + JS.floor (RiskCalculator.otherDebtsRatio fullDsrData * 30)))
    /\ RiskCalculator.initialBaseScore dsr <= 100
    /\ ((JS.floor (dsr * 150) <= 100
         /\ RiskCalculator.initialBaseScore dsr == JS.floor (dsr * 150)
         /\ exists s, lateClampScore fullDsrData None = Some s
                      /\ RiskCalculator.score r == s)
        \/ (100 < JS.floor (dsr * 150)
            /\ RiskCalculator.initialBaseScore dsr == 100)).
Proof.
  apply (base_score_capped_then_clamped fullDsrData None).
  vm_compute. discriminate.
Defined.


(** *** The DCR adjustment and the sentinel *)

(** Exactly one branch of the adjustment is taken, by the position of the
    DCR against 1.0 and 1.2. *)
Lemma adjustByDcr_cases (b dcr : Q) :
  (dcr < 1
   /\ RiskCalculator.adjustByDcr b dcr
      = (b + 40, RiskCalculator.dcrDetailVeryHigh))
  \/ (1 <= dcr < 1.2
      /\ RiskCalculator.adjustByDcr b dcr
         = (b + 15, RiskCalculator.dcrDetailHigh))
  \/ (1.2 <= dcr
      /\ RiskCalculator.adjustByDcr b dcr
         = (b + - 10, RiskCalculator.dcrDetailLow)).
Proof.
  unfold RiskCalculator.adjustByDcr.
  destruct (dcr <? 1.0) eqn:E1.
  - left. split; [|reflexivity].
    apply ltb_true_iff in E1. eapply Qlt_le_trans; [exact E1 | discriminate].
  - apply ltb_false_iff in E1.
    assert (H1 : 1 <= dcr) by (eapply Qle_trans; [|exact E1]; discriminate).
    destruct (dcr <? 1.2) eqn:E2.
    + right. left. split; [|reflexivity].
      split; [exact H1 | now apply ltb_true_iff].
    + right. right. split; [|reflexivity]. now apply ltb_false_iff.
Qed.

(** C8.  With a borrower income other than zero, exactly one of the three
    DCR adjustments enters the score: +40 when DCR < 1.0, otherwise +15
    when DCR < 1.2, otherwise -10 (DCR >= 1.2); the three conditions
    exclude one another, the adjustment is added once to the base score
    before the other-debts term and the clamp, and the detail text is the
    one of the branch taken. *)
Theorem exactly_one_dcr_adjustment
    (data : RiskCalculator.FormData) (repaymentOverride : option Q) :
  ~ RiskCalculator.annualIncomeDebtor data == 0 ->
  let base :=
    RiskCalculator.initialBaseScore
      (RiskCalculator.effectiveRepayment data repaymentOverride
       / RiskCalculator.annualIncomeDebtor data) in
  let other := JS.floor (RiskCalculator.otherDebtsRatio data * 30) in
  exists r adjustment,
    RiskCalculator.calculateRealEstateRisk data repaymentOverride = Some r
    /\ RiskCalculator.score r
       = JS.max 0 (JS.min 100 (base + adjustment + other))
    /\ ((RiskCalculator.dcrValue r < 1
         /\ adjustment = 40
         /\ RiskCalculator.dcrDetail r = RiskCalculator.dcrDetailVeryHigh)
        \/ (1 <= RiskCalculator.dcrValue r < 1.2
            /\ adjustment = 15
            /\ RiskCalculator.dcrDetail r = RiskCalculator.dcrDetailHigh)
        \/ (1.2 <= RiskCalculator.dcrValue r
            /\ adjustment = - 10
            /\ RiskCalculator.dcrDetail r = RiskCalculator.dcrDetailLow)).
Proof.
  intros H base other.
  pose proof (calculateRealEstateRisk_nonzero_income data repaymentOverride H)
    as Hcalc. cbv zeta in Hcalc. fold base other in Hcalc.
  match type of Hcalc with
  | context [RiskCalculator.adjustByDcr base ?d] =>
      destruct (adjustByDcr_cases base d) as [[Hd E] | [[Hd E] | [Hd E]]];
      rewrite E in Hcalc; cbn [fst snd] in Hcalc
  end.
  - eexists. exists 40. split; [exact Hcalc|].
    split; [reflexivity|]. left. repeat split; assumption || reflexivity.
  - eexists. exists 15. split; [exact Hcalc|].
    split; [reflexivity|]. right. left.
    cbn [RiskCalculator.dcrValue RiskCalculator.dcrDetail].
    repeat split; try reflexivity; apply Hd.
  - eexists. exists (- 10). split; [exact Hcalc|].
    split; [reflexivity|]. right. right.
    repeat split; assumption || reflexivity.
Qed.

Lemma exactly_one_dcr_adjustment_witness :
  let base := RiskCalculator.initialBaseScore (1000000 / 5000000) in
  let other := JS.floor (0.1 * 30) in
  exists r adjustment,
    RiskCalculator.calculateRealEstateRisk RiskCalculator.initialFormData None
    = Some r
    /\ RiskCalculator.score r
       = JS.max 0 (JS.min 100 (base + adjustment + other))
    /\ ((RiskCalculator.dcrValue r < 1
         /\ adjustment = 40
         /\ RiskCalculator.dcrDetail r = RiskCalculator.dcrDetailVeryHigh)
        \/ (1 <= RiskCalculator.dcrValue r < 1.2
            /\ adjustment = 15
            /\ RiskCalculator.dcrDetail r = RiskCalculator.dcrDetailHigh)
        \/ (1.2 <= RiskCalculator.dcrValue r
            /\ adjustment = - 10
            /\ RiskCalculator.dcrDetail r = RiskCalculator.dcrDetailLow)).
Proof.
  apply (exactly_one_dcr_adjustment RiskCalculator.initialFormData None).
  vm_compute. discriminate.
Defined.

(** C9.  With a borrower income other than zero, a repayment of zero and a
    positive net income, the DSR/DCR scorer returns, no division by zero is
    evaluated, and the DCR value is the sentinel 999. *)
Theorem zero_repayment_gives_sentinel
    (data : RiskCalculator.FormData) (repaymentOverride : option Q) :
  ~ RiskCalculator.annualIncomeDebtor data == 0 ->
  RiskCalculator.effectiveRepayment data repaymentOverride == 0 ->
  0 < RiskCalculator.netIncome data ->
  exists r,
    RiskCalculator.calculateRealEstateRisk data repaymentOverride = Some r
    /\ RiskCalculator.dcrValue r == 999
    /\ RiskCalculator.annualNetIncome r = Some (RiskCalculator.netIncome data).
Proof.
  intros Hincome Hrep _.
  pose proof (calculateRealEstateRisk_nonzero_income data repaymentOverride
                Hincome) as Hcalc. cbv zeta in Hcalc.
  assert (E : (RiskCalculator.effectiveRepayment data repaymentOverride >? 0)
              = false).
  { apply ltb_false_iff. rewrite Hrep. apply Qle_refl. }
  rewrite E in Hcalc.
  eexists. split; [exact Hcalc|].
  split; reflexivity.
Qed.

Lemma zero_repayment_gives_sentinel_witness :
  exists r,
    RiskCalculator.calculateRealEstateRisk zeroRepaymentData None = Some r
    /\ RiskCalculator.dcrValue r == 999
    /\ RiskCalculator.annualNetIncome r
       = Some (RiskCalculator.netIncome zeroRepaymentData).
Proof.
  apply (zero_repayment_gives_sentinel zeroRepaymentData None).
  - vm_compute. discriminate.
  - reflexivity.
  - reflexivity.
Defined.

(** *** The stress driver *)

(** C2, as stated, fails.  On the initial form the driver's "original"
    assessment is the one of the DSR/DCR scorer (score 23), not the one of
    the multi-factor scorer on the same quantities (final score 90). *)
Lemma driver_does_not_run_multifactor_scorer :
  exists sim a,
    RiskCalculator.runWorstCaseSimulation RiskCalculator.initialFormData
      None None = Some sim
    /\ MultiFactor.calculateRiskScore
         (asMultiFactorInput RiskCalculator.initialFormData 0.03 0.04) = Some a
    /\ ~ RiskCalculator.score (RiskCalculator.original sim)
         == MultiFactor.finalScore a
    /\ RiskCalculator.score (RiskCalculator.original sim) == 23
    /\ MultiFactor.finalScore a == 90
    /\ RiskCalculator.calculateRealEstateRisk RiskCalculator.initialFormData None
       = Some (RiskCalculator.original sim).
Proof.
  do 2 eexists.
  split; [vm_compute; reflexivity|].
  split; [vm_compute; reflexivity|].
  repeat split; vm_compute; (reflexivity || discriminate).
Qed.

(** C2, amended.  The driver runs the DSR/DCR scorer
    [calculateRealEstateRisk] three times and always returns: "original" is
    its result on the unmodified form, "vacancy" its result on the form
    with the vacancy rate replaced by the worst-case rate (0.20 unless
    given), "rateHike" its result on the unmodified form with the repayment
    overridden by repayment + loanAmount x rate increase (0.02 unless
    given), and "newRepaymentAmount" is that stressed repayment. *)
Theorem driver_runs_dsr_dcr_scorer_three_times
    (originalData : RiskCalculator.FormData)
    (rateIncreasePercentage worstVacancyRate : option Q) :
  let rate :=
    match rateIncreasePercentage with Some p => p | None => 0.02 end in
  let worst :=
    match worstVacancyRate with Some v => v | None => 0.20 end in
  let stressed :=
    RiskCalculator.annualRepayment originalData
    + RiskCalculator.loanAmount originalData * rate in
  let vacancyData :=
    {| RiskCalculator.annualIncomeDebtor :=
         RiskCalculator.annualIncomeDebtor originalData;
       RiskCalculator.annualRepayment :=
         RiskCalculator.annualRepayment originalData;
       RiskCalculator.loanAmount := RiskCalculator.loanAmount originalData;
       RiskCalculator.annualRentalIncomeGross :=
         RiskCalculator.annualRentalIncomeGross originalData;
       RiskCalculator.annualExpensesRatio :=
         RiskCalculator.annualExpensesRatio originalData;
       RiskCalculator.vacancyRateAssumption := worst;
       RiskCalculator.otherDebtsRatio :=
         RiskCalculator.otherDebtsRatio originalData |} in
  exists sim,
    RiskCalculator.runWorstCaseSimulation originalData
      rateIncreasePercentage worstVacancyRate = Some sim
    /\ RiskCalculator.calculateRealEstateRisk originalData None
       = Some (RiskCalculator.original sim)
    /\ RiskCalculator.calculateRealEstateRisk vacancyData None
       = Some (RiskCalculator.vacancy sim)
    /\ RiskCalculator.calculateRealEstateRisk originalData (Some stressed)
       = Some (RiskCalculator.rateHike sim)
    /\ RiskCalculator.newRepaymentAmount sim = stressed.
Proof.
  intros rate worst stressed vacancyData.
  destruct (calculateRealEstateRisk_total originalData None) as (o & Ho & _).
  destruct (calculateRealEstateRisk_total vacancyData None) as (v & Hv & _).
  destruct (calculateRealEstateRisk_total originalData (Some stressed))
    as (h & Hh & _).
  unfold RiskCalculator.runWorstCaseSimulation.
  change (RiskCalculator.orDefault rateIncreasePercentage 0.02) with rate.
  change (RiskCalculator.orDefault worstVacancyRate 0.20) with worst.
  change (RiskCalculator.withVacancyRate originalData worst) with vacancyData.
  cbv zeta. fold stressed.
  rewrite Hv, Hh, Ho. cbn [JS.bind].
  eexists. split; [reflexivity|].
  repeat split; assumption.
Qed.


(** ** Further properties of the multi-factor scorer *)

(** Turn the boolean comparisons in the context into order facts. *)
Ltac order_facts :=
  repeat match goal with
  | H : (_ <? _) = true |- _ => apply ltb_true_iff in H
  | H : (_ <? _) = false |- _ => apply ltb_false_iff in H
  | H : (_ >? _) = true |- _ => apply ltb_true_iff in H
  | H : (_ >? _) = false |- _ => apply ltb_false_iff in H
  | H : (_ >=? _) = true |- _ => apply geb_true_iff in H
  | H : (_ >=? _) = false |- _ =>
      apply not_true_iff_false in H; rewrite geb_true_iff in H;
      apply Qnot_le_lt in H
  end.

(** Each sub-score is five times an integer, within tighter bounds than
    its floor at 0 suggests. *)
Ltac fifth_of_value :=
  match goal with
  | |- exists k : Z, _ /\ ?v == _ =>
      let q := eval vm_compute in (Qfloor v / 5)%Z in
      exists q; split; [lia | vm_compute; reflexivity]
  end.

Lemma creditScoreOf_fives (d t o : Q) :
  exists k : Z,
    (2 <= k <= 6)%Z /\ MultiFactor.creditScoreOf d t o == inject_Z (5 * k).
Proof.
  unfold MultiFactor.creditScoreOf.
  destruct (d >? 0.3), (t >? 5), (o >? 0.2); fifth_of_value.
Qed.

Lemma propertyScoreOf_fives (c e v : Q) :
  exists k : Z,
    (1 <= k <= 8)%Z /\ MultiFactor.propertyScoreOf c e v == inject_Z (5 * k).
Proof.
  unfold MultiFactor.propertyScoreOf.
  destruct (c <? 1.2), (c <? 1.0), (e >? 0.4), (v >? 0.15); fifth_of_value.
Qed.

Lemma interestRiskScoreOf_fives (r t : Q) :
  exists k : Z,
    (1 <= k <= 6)%Z /\ MultiFactor.interestRiskScoreOf r t == inject_Z (5 * k).
Proof.
  unfold MultiFactor.interestRiskScoreOf.
  destruct (r >? 0.04), (r >? 0.05), (t >? 8); fifth_of_value.
Qed.

Lemma inject_Z_bounds (lo hi k : Z) :
  (lo <= k <= hi)%Z -> inject_Z (5 * lo) <= inject_Z (5 * k) <= inject_Z (5 * hi).
Proof.
  intros [H1 H2]. split; rewrite <- Zle_Qle; lia.
Qed.

(** The final score is five times an integer between 4 and 20. *)
Lemma calculateRiskScore_fives (input : MultiFactor.Input) :
  exists a (kc kp ki : Z),
    MultiFactor.calculateRiskScore input = Some a
    /\ (2 <= kc <= 6)%Z /\ (1 <= kp <= 8)%Z /\ (1 <= ki <= 6)%Z
    /\ MultiFactor.creditScore a == inject_Z (5 * kc)
    /\ MultiFactor.propertyScore a == inject_Z (5 * kp)
    /\ MultiFactor.interestRiskScore a == inject_Z (5 * ki)
    /\ MultiFactor.finalScore a == inject_Z (5 * (kc + kp + ki)).
Proof.
  destruct (calculateRiskScore_some input)
    as (a & Ha & _ & _ & Hc & _ & Hp & Hi & Hf & _).
  destruct (creditScoreOf_fives
              (MultiFactor.annualRepayment input
               / (MultiFactor.annualIncome input ||| 1))
              (MultiFactor.totalDebt input
               / (MultiFactor.annualIncome input ||| 1))
              (MultiFactor.otherDebtRatio input)) as (kc & Rc & Ec).
  destruct (propertyScoreOf_fives
              (MultiFactor.noi input
               / (MultiFactor.annualRepayment input ||| 1))
              (MultiFactor.expenseRate input)
              (MultiFactor.vacancyRate input)) as (kp & Rp & Ep).
  destruct (interestRiskScoreOf_fives
              (MultiFactor.interestRate input)
              (MultiFactor.totalDebt input
               / (MultiFactor.annualIncome input ||| 1))) as (ki & Ri & Ei).
  rewrite <- Hc in Ec. rewrite <- Hp in Ep. rewrite <- Hi in Ei.
  exists a, kc, kp, ki.
  repeat (split; [assumption|]).
  rewrite Hf, Ec, Ep, Ei, <- !inject_Z_plus.
  apply inject_Z_injective. lia.
Qed.

(** X1.  For every input the credit sub-score is at least 10, the property
    sub-score at least 5 and the interest-risk sub-score at least 5, so the
    floors at 0 are never reached and the final score lies in [20,100];
    the final score is a whole multiple of 5; and the lowest score, 20, is
    attained on an input that triggers every penalty. *)
Theorem final_score_multiple_of_five_from_20 :
  (forall input : MultiFactor.Input,
      exists a,
        MultiFactor.calculateRiskScore input = Some a
        /\ 10 <= MultiFactor.creditScore a <= 30
        /\ 5 <= MultiFactor.propertyScore a <= 40
        /\ 5 <= MultiFactor.interestRiskScore a <= 30
        /\ 20 <= MultiFactor.finalScore a <= 100
        /\ exists k : Z, MultiFactor.finalScore a == inject_Z (5 * k))
  /\ (exists a,
        MultiFactor.calculateRiskScore everyPenaltyInput = Some a
        /\ MultiFactor.creditScore a == 10
        /\ MultiFactor.propertyScore a == 5
        /\ MultiFactor.interestRiskScore a == 5
        /\ MultiFactor.finalScore a == 20).
Proof.
  split.
  - intros input.
    destruct (calculateRiskScore_fives input)
      as (a & kc & kp & ki & Ha & Rc & Rp & Ri & Ec & Ep & Ei & Ef).
    exists a. split; [exact Ha|].
    split; [rewrite Ec; apply (inject_Z_bounds 2 6 kc Rc)|].
    split; [rewrite Ep; apply (inject_Z_bounds 1 8 kp Rp)|].
    split; [rewrite Ei; apply (inject_Z_bounds 1 6 ki Ri)|].
    split; [|now exists (kc + kp + ki)%Z].
    rewrite Ef. apply (inject_Z_bounds 4 20 (kc + kp + ki)). lia.
  - eexists. split; [vm_compute; reflexivity|].
    repeat split; vm_compute; reflexivity.
Qed.

(** The three levels of the present assessment, by the final score. *)
Lemma currentRisk_cases (f : Q) :
  (f < 50 /\ MultiFactor.currentRisk f
             = (MultiFactor.levelHigh, MultiFactor.riskDetailHigh))
  \/ (50 <= f < 80 /\ MultiFactor.currentRisk f
                      = (MultiFactor.levelMedium, MultiFactor.riskDetailMedium))
  \/ (80 <= f /\ MultiFactor.currentRisk f
                 = (MultiFactor.levelLow, MultiFactor.riskDetailLow)).
Proof.
  unfold MultiFactor.currentRisk.
  destruct (f <? 80) eqn:E80; destruct (f <? 50) eqn:E50; order_facts.
  - left. now split.
  - right. left. now split.
  - exfalso. lra.
  - right. right. now split.
Qed.

(** The remaining fields of the assessment, over unchecked quotients. *)
Lemma calculateRiskScore_simulations (input : MultiFactor.Input) :
  let n := MultiFactor.noi input in
  let repayment := MultiFactor.annualRepayment input in
  let stressed :=
    repayment
    + MultiFactor.estimateIncreasedRepayment (MultiFactor.totalDebt input)
        (MultiFactor.interestRate input)
        (MultiFactor.simulatedInterestRate input) in
  let worstNoi :=
    MultiFactor.annualRentIncome input
    * (1 - MultiFactor.WORST_CASE_VACANCY_RATE)
    * (1 - MultiFactor.expenseRate input) in
  exists a,
    MultiFactor.calculateRiskScore input = Some a
    /\ MultiFactor.currentDcsr a = n / (repayment ||| 1)
    /\ MultiFactor.simulatedRepayment a = stressed
    /\ MultiFactor.simulatedDcsr a = n / (stressed ||| 1)
    /\ (MultiFactor.simulatedRiskLevel a, MultiFactor.simulatedRiskDetail a)
       = MultiFactor.simulatedRisk (MultiFactor.simulatedInterestRate input)
           (MultiFactor.simulatedDcsr a)
    /\ MultiFactor.worstCaseVacancyDcsr a = worstNoi / (repayment ||| 1)
    /\ (MultiFactor.vacancyRiskLevel a, MultiFactor.vacancyRiskDetail a)
       = MultiFactor.vacancyRisk (MultiFactor.worstCaseVacancyDcsr a)
    /\ (MultiFactor.riskLevel a, MultiFactor.riskDetail a)
       = MultiFactor.currentRisk (MultiFactor.finalScore a).
Proof.
  intros n repayment stressed worstNoi.
  unfold MultiFactor.calculateRiskScore, MultiFactor.debtToIncomeRatio,
    MultiFactor.totalDebtToIncomeRatio, MultiFactor.dcsr.
  rewrite !div_nonzero by apply or_else_one_nonzero.
  cbn [JS.bind]. fold n repayment stressed worstNoi.
  destruct (MultiFactor.simulatedRisk _ _) as [sl sd] eqn:Hs.
  destruct (MultiFactor.vacancyRisk _) as [vl vd] eqn:Hv.
  destruct (MultiFactor.currentRisk _) as [rl rd] eqn:Hr.
  eexists. split; [reflexivity|].
  cbn [MultiFactor.currentDcsr MultiFactor.simulatedRepayment
       MultiFactor.simulatedDcsr MultiFactor.simulatedRiskLevel
       MultiFactor.simulatedRiskDetail MultiFactor.worstCaseVacancyDcsr
       MultiFactor.vacancyRiskLevel MultiFactor.vacancyRiskDetail
       MultiFactor.riskLevel MultiFactor.riskDetail MultiFactor.finalScore].
  rewrite Hs, Hv, Hr. repeat split; reflexivity.
Qed.

(** X2.  For every input the level and its explanatory text follow the
    final score alone: below 50 the high level, from 50 and below 80 the
    medium level, from 80 the low level. *)
Theorem risk_level_by_final_score (input : MultiFactor.Input) :
  exists a,
    MultiFactor.calculateRiskScore input = Some a
    /\ ((MultiFactor.finalScore a < 50
         /\ MultiFactor.riskLevel a = "高"%string
         /\ MultiFactor.riskDetail a = MultiFactor.riskDetailHigh)
        \/ (50 <= MultiFactor.finalScore a < 80
            /\ MultiFactor.riskLevel a = "中"%string
            /\ MultiFactor.riskDetail a = MultiFactor.riskDetailMedium)
        \/ (80 <= MultiFactor.finalScore a
            /\ MultiFactor.riskLevel a = "低"%string
            /\ MultiFactor.riskDetail a = MultiFactor.riskDetailLow)).
Proof.
  destruct (calculateRiskScore_simulations input)
    as (a & Ha & _ & _ & _ & _ & _ & _ & Hr).
  exists a. split; [exact Ha|].
  destruct (currentRisk_cases (MultiFactor.finalScore a))
    as [[Hf E] | [[Hf E] | [Hf E]]];
    rewrite E in Hr; injection Hr as Hl Hd.
  - left. now repeat split.
  - right. left. now repeat split.
  - right. right. now repeat split.
Qed.

(** *** The gauge *)





(** *** The top score *)

Ltac settle_penalty_case :=
  order_facts;
  split;
  [ let H := fresh in
    intros H; try (vm_compute in H; discriminate); repeat split; lra
  | let H := fresh in
    intros H; try (exfalso; lra); vm_compute; reflexivity ].

Lemma creditScoreOf_full_iff (d t o : Q) :
  MultiFactor.creditScoreOf d t o == 30 <-> (d <= 0.3 /\ t <= 5 /\ o <= 0.2).
Proof.
  unfold MultiFactor.creditScoreOf.
  destruct (d >? 0.3) eqn:E1; destruct (t >? 5) eqn:E2;
    destruct (o >? 0.2) eqn:E3; settle_penalty_case.
Qed.

Lemma propertyScoreOf_full_iff (c e v : Q) :
  MultiFactor.propertyScoreOf c e v == 40
  <-> (1.2 <= c /\ e <= 0.4 /\ v <= 0.15).
Proof.
  unfold MultiFactor.propertyScoreOf.
  destruct (c <? 1.2) eqn:E1; destruct (c <? 1.0) eqn:E2;
    destruct (e >? 0.4) eqn:E3; destruct (v >? 0.15) eqn:E4;
    settle_penalty_case.
Qed.

Lemma interestRiskScoreOf_full_iff (r t : Q) :
  t <= 5 -> (MultiFactor.interestRiskScoreOf r t == 30 <-> r <= 0.04).
Proof.
  intros Ht. unfold MultiFactor.interestRiskScoreOf.
  destruct (r >? 0.04) eqn:E1; destruct (r >? 0.05) eqn:E2;
    destruct (t >? 8) eqn:E3; settle_penalty_case.
Qed.

(** X4.  The final score is 100 exactly when no penalty applies: repayment
    over income at most 0.3, total debt over income at most 5, other-debt
    ratio at most 0.2, coverage ratio at least 1.2, expense rate at most
    0.4, vacancy rate at most 0.15 and interest rate at most 0.04 (income
    standing for 1 when it is zero). *)
Theorem full_score_iff_no_penalty (input : MultiFactor.Input) :
  let income := MultiFactor.annualIncome input ||| 1 in
  exists a,
    MultiFactor.calculateRiskScore input = Some a
    /\ (MultiFactor.finalScore a == 100
        <-> (MultiFactor.annualRepayment input / income <= 0.3
             /\ MultiFactor.totalDebt input / income <= 5
             /\ MultiFactor.otherDebtRatio input <= 0.2
             /\ 1.2 <= MultiFactor.currentDcsr a
             /\ MultiFactor.expenseRate input <= 0.4
             /\ MultiFactor.vacancyRate input <= 0.15
             /\ MultiFactor.interestRate input <= 0.04)).
Proof.
  intros income.
  destruct (calculateRiskScore_some input)
    as (a & Ha & _ & _ & Hc & Hd & Hp & Hi & Hf & _).
  fold income in Hc, Hi.
  exists a. split; [exact Ha|].
  rewrite Hd, Hf, Hc, Hp, Hi.
  set (d := MultiFactor.annualRepayment input / income).
  set (t := MultiFactor.totalDebt input / income).
  set (c := MultiFactor.noi input / (MultiFactor.annualRepayment input ||| 1)).
  pose proof (creditScoreOf_range d t (MultiFactor.otherDebtRatio input))
    as [_ Rc].
  pose proof (propertyScoreOf_range c (MultiFactor.expenseRate input)
                (MultiFactor.vacancyRate input)) as [_ Rp].
  pose proof (interestRiskScoreOf_range (MultiFactor.interestRate input) t)
    as [_ Ri].
  pose proof (creditScoreOf_full_iff d t (MultiFactor.otherDebtRatio input))
    as Fc.
  pose proof (propertyScoreOf_full_iff c (MultiFactor.expenseRate input)
                (MultiFactor.vacancyRate input)) as Fp.
  pose proof (interestRiskScoreOf_full_iff (MultiFactor.interestRate input) t)
    as Fi.
  split.
  - intros H.
    assert (Ec : MultiFactor.creditScoreOf d t
                   (MultiFactor.otherDebtRatio input) == 30) by lra.
    assert (Ep : MultiFactor.propertyScoreOf c
                   (MultiFactor.expenseRate input)
                   (MultiFactor.vacancyRate input) == 40) by lra.
    assert (Ei : MultiFactor.interestRiskScoreOf
                   (MultiFactor.interestRate input) t == 30) by lra.
    apply Fc in Ec. apply Fp in Ep. destruct Ec as (? & Ht & ?).
    apply (Fi Ht) in Ei. intuition.
  - intros (H1 & H2 & H3 & H4 & H5 & H6 & H7).
    assert (Ec : MultiFactor.creditScoreOf d t
                   (MultiFactor.otherDebtRatio input) == 30)
      by (apply Fc; auto).
    assert (Ep : MultiFactor.propertyScoreOf c
                   (MultiFactor.expenseRate input)
                   (MultiFactor.vacancyRate input) == 40)
      by (apply Fp; auto).
    assert (Ei : MultiFactor.interestRiskScoreOf
                   (MultiFactor.interestRate input) t == 30)
      by (apply (Fi H2); auto).
    rewrite Ec, Ep, Ei. reflexivity.
Qed.

(** X5.  The simulated interest rate never enters the present assessment:
    replacing it leaves the three sub-scores, the final score, the level
    and its text, the current coverage ratio and the whole vacancy
    simulation unchanged. *)
Theorem simulated_rate_leaves_score_unchanged
    (input : MultiFactor.Input) (rate : Q) :
  exists a a',
    MultiFactor.calculateRiskScore input = Some a
    /\ MultiFactor.calculateRiskScore (withSimulatedInterestRate input rate)
       = Some a'
    /\ MultiFactor.creditScore a' = MultiFactor.creditScore a
    /\ MultiFactor.propertyScore a' = MultiFactor.propertyScore a
    /\ MultiFactor.interestRiskScore a' = MultiFactor.interestRiskScore a
    /\ MultiFactor.finalScore a' = MultiFactor.finalScore a
    /\ MultiFactor.riskLevel a' = MultiFactor.riskLevel a
    /\ MultiFactor.riskDetail a' = MultiFactor.riskDetail a
    /\ MultiFactor.currentDcsr a' = MultiFactor.currentDcsr a
    /\ MultiFactor.worstCaseVacancyDcsr a' = MultiFactor.worstCaseVacancyDcsr a
    /\ MultiFactor.vacancyRiskLevel a' = MultiFactor.vacancyRiskLevel a
    /\ MultiFactor.vacancyRiskDetail a' = MultiFactor.vacancyRiskDetail a.
Proof.
  destruct (calculateRiskScore_some input)
    as (a & Ha & _ & _ & Hc & Hd & Hp & Hi & Hf & _).
  destruct (calculateRiskScore_simulations input)
    as (b & Hb & _ & _ & _ & _ & Hw & Hv & Hr).
  rewrite Ha in Hb. injection Hb as <-.
  destruct (calculateRiskScore_some (withSimulatedInterestRate input rate))
    as (a' & Ha' & _ & _ & Hc' & Hd' & Hp' & Hi' & Hf' & _).
  destruct (calculateRiskScore_simulations
              (withSimulatedInterestRate input rate))
    as (b' & Hb' & _ & _ & _ & _ & Hw' & Hv' & Hr').
  rewrite Ha' in Hb'. injection Hb' as <-.
  exists a, a'. split; [exact Ha|]. split; [exact Ha'|].
  assert (Ec : MultiFactor.creditScore a' = MultiFactor.creditScore a)
    by (rewrite Hc, Hc'; reflexivity).
  assert (Ep : MultiFactor.propertyScore a' = MultiFactor.propertyScore a)
    by (rewrite Hp, Hp'; reflexivity).
  assert (Ei : MultiFactor.interestRiskScore a'
               = MultiFactor.interestRiskScore a)
    by (rewrite Hi, Hi'; reflexivity).
  assert (Ef : MultiFactor.finalScore a' = MultiFactor.finalScore a)
    by (rewrite Hf, Hf', Ec, Ep, Ei; reflexivity).
  assert (Ew : MultiFactor.worstCaseVacancyDcsr a'
               = MultiFactor.worstCaseVacancyDcsr a)
    by (rewrite Hw, Hw'; reflexivity).
  rewrite Ef in Hr'. rewrite <- Hr in Hr'. injection Hr' as El Et.
  rewrite Ew in Hv'. rewrite <- Hv in Hv'. injection Hv' as Evl Evd.
  repeat split; try assumption.
  rewrite Hd, Hd'. reflexivity.
Qed.

(** *** The two simulations *)

Lemma simulatedRisk_cases (rate c : Q) :
  (c < 1 /\ fst (MultiFactor.simulatedRisk rate c) = MultiFactor.levelHigh)
  \/ (1 <= c < 1.2
      /\ fst (MultiFactor.simulatedRisk rate c) = MultiFactor.levelMedium)
  \/ (1.2 <= c
      /\ fst (MultiFactor.simulatedRisk rate c) = MultiFactor.levelLow).
Proof.
  unfold MultiFactor.simulatedRisk.
  destruct (c <? 1.2) eqn:E12; destruct (c <? 1.0) eqn:E10; order_facts.
  - left. split; [lra | reflexivity].
  - right. left. split; [lra | reflexivity].
  - exfalso. lra.
  - right. right. split; [lra | reflexivity].
Qed.

Lemma vacancyRisk_cases (c : Q) :
  (c < 1 /\ fst (MultiFactor.vacancyRisk c) = MultiFactor.levelHigh)
  \/ (1 <= c < 1.2
      /\ fst (MultiFactor.vacancyRisk c) = MultiFactor.levelMedium)
  \/ (1.2 <= c /\ fst (MultiFactor.vacancyRisk c) = MultiFactor.levelLow).
Proof.
  unfold MultiFactor.vacancyRisk.
  destruct (c <? 1.2) eqn:E12; destruct (c <? 1.0) eqn:E10; order_facts.
  - left. split; [lra | reflexivity].
  - right. left. split; [lra | reflexivity].
  - exfalso. lra.
  - right. right. split; [lra | reflexivity].
Qed.

(** X6.  Each simulation is classified by its own coverage ratio, and its
    badge takes the matching colour: below 1.0 the high level on red, from
    1.0 and below 1.2 the medium level on yellow, from 1.2 the low level on
    green.  This holds for the rate simulation and for the vacancy
    simulation of every input. *)
Theorem simulation_levels_and_badges (input : MultiFactor.Input) :
  exists a,
    MultiFactor.calculateRiskScore input = Some a
    /\ ((MultiFactor.simulatedDcsr a < 1
         /\ MultiFactor.simulatedRiskLevel a = "高"%string
         /\ Gauge.levelBadge (MultiFactor.simulatedRiskLevel a)
            = Gauge.badgeRed)
        \/ (1 <= MultiFactor.simulatedDcsr a < 1.2
            /\ MultiFactor.simulatedRiskLevel a = "中"%string
            /\ Gauge.levelBadge (MultiFactor.simulatedRiskLevel a)
               = Gauge.badgeYellow)
        \/ (1.2 <= MultiFactor.simulatedDcsr a
            /\ MultiFactor.simulatedRiskLevel a = "低"%string
            /\ Gauge.levelBadge (MultiFactor.simulatedRiskLevel a)
               = Gauge.badgeGreen))
    /\ ((MultiFactor.worstCaseVacancyDcsr a < 1
         /\ MultiFactor.vacancyRiskLevel a = "高"%string
         /\ Gauge.levelBadge (MultiFactor.vacancyRiskLevel a)
            = Gauge.badgeRed)
        \/ (1 <= MultiFactor.worstCaseVacancyDcsr a < 1.2
            /\ MultiFactor.vacancyRiskLevel a = "中"%string
            /\ Gauge.levelBadge (MultiFactor.vacancyRiskLevel a)
               = Gauge.badgeYellow)
        \/ (1.2 <= MultiFactor.worstCaseVacancyDcsr a
            /\ MultiFactor.vacancyRiskLevel a = "低"%string
            /\ Gauge.levelBadge (MultiFactor.vacancyRiskLevel a)
               = Gauge.badgeGreen)).
Proof.
  destruct (calculateRiskScore_simulations input)
    as (a & Ha & _ & _ & _ & Hs & _ & Hv & _).
  exists a. split; [exact Ha|].
  apply (f_equal fst) in Hs. apply (f_equal fst) in Hv.
  cbn [fst] in Hs, Hv.
  split.
  - destruct (simulatedRisk_cases (MultiFactor.simulatedInterestRate input)
                (MultiFactor.simulatedDcsr a)) as [[H E] | [[H E] | [H E]]];
      rewrite E in Hs; rewrite Hs.
    + left. now repeat split.
    + right. left. repeat split; try apply H; reflexivity.
    + right. right. now repeat split.
  - destruct (vacancyRisk_cases (MultiFactor.worstCaseVacancyDcsr a))
      as [[H E] | [[H E] | [H E]]];
      rewrite E in Hv; rewrite Hv.
    + left. now repeat split.
    + right. left. repeat split; try apply H; reflexivity.
    + right. right. now repeat split.
Qed.

(** *** Monotonicity of the property sub-score *)

Lemma propertyScoreOf_monotone (c c' e v v' : Q) :
  c' <= c -> v <= v' ->
  MultiFactor.propertyScoreOf c' e v' <= MultiFactor.propertyScoreOf c e v.
Proof.
  intros Hc Hv. unfold MultiFactor.propertyScoreOf.
  destruct (c <? 1.2) eqn:E1; destruct (c <? 1.0) eqn:E2;
    destruct (c' <? 1.2) eqn:E3; destruct (c' <? 1.0) eqn:E4;
    destruct (v >? 0.15) eqn:E5; destruct (v' >? 0.15) eqn:E6;
    destruct (e >? 0.4) eqn:E7;
    order_facts; try (exfalso; lra); vm_compute; discriminate.
Qed.

Lemma or_else_one_positive (r : Q) : 0 <= r -> 0 < r ||| 1.
Proof.
  intros H. unfold JS.or_else. destruct (Qeq_bool r 0) eqn:E.
  - reflexivity.
  - apply Qeq_bool_neq in E. apply Qnot_le_lt. intros H'.
    apply E. now apply Qle_antisym.
Qed.

Lemma quotient_monotone (n n' d : Q) : 0 < d -> n' <= n -> n' / d <= n / d.
Proof.
  intros Hd Hn. unfold Qdiv. apply Qmult_le_compat_r; [exact Hn|].
  apply Qinv_le_0_compat. now apply Qlt_le_weak.
Qed.

(** X7.  With a non-negative rent, an expense rate of at most 1 and a
    non-negative repayment, raising the vacancy rate never raises the
    coverage ratio, the property sub-score or the final score; the credit
    and interest-risk sub-scores do not move. *)
Theorem higher_vacancy_never_raises_score
    (input : MultiFactor.Input) (vacancy : Q) :
  0 <= MultiFactor.annualRentIncome input ->
  MultiFactor.expenseRate input <= 1 ->
  0 <= MultiFactor.annualRepayment input ->
  MultiFactor.vacancyRate input <= vacancy ->
  exists a a',
    MultiFactor.calculateRiskScore input = Some a
    /\ MultiFactor.calculateRiskScore (withVacancy input vacancy) = Some a'
    /\ MultiFactor.currentDcsr a' <= MultiFactor.currentDcsr a
    /\ MultiFactor.propertyScore a' <= MultiFactor.propertyScore a
    /\ MultiFactor.creditScore a' = MultiFactor.creditScore a
    /\ MultiFactor.interestRiskScore a' = MultiFactor.interestRiskScore a
    /\ MultiFactor.finalScore a' <= MultiFactor.finalScore a.
Proof.
  intros Hrent Hexp Hrep Hvac.
  destruct (calculateRiskScore_some input)
    as (a & Ha & _ & _ & Hc & Hd & Hp & Hi & Hf & _).
  destruct (calculateRiskScore_some (withVacancy input vacancy))
    as (a' & Ha' & _ & _ & Hc' & Hd' & Hp' & Hi' & Hf' & _).
  cbn [withVacancy MultiFactor.annualRepayment MultiFactor.annualIncome
       MultiFactor.totalDebt MultiFactor.otherDebtRatio
       MultiFactor.expenseRate MultiFactor.vacancyRate
       MultiFactor.interestRate] in Hc', Hd', Hp', Hi'.
  exists a, a'. split; [exact Ha|]. split; [exact Ha'|].
  assert (Hnoi : MultiFactor.noi (withVacancy input vacancy)
                 <= MultiFactor.noi input).
  { unfold MultiFactor.noi.
    cbn [withVacancy MultiFactor.annualRentIncome MultiFactor.vacancyRate
         MultiFactor.expenseRate].
    apply Qmult_le_compat_r; [|lra].
    rewrite !(Qmult_comm (MultiFactor.annualRentIncome input)).
    apply Qmult_le_compat_r; [lra | exact Hrent]. }
  assert (Hdcsr : MultiFactor.currentDcsr a' <= MultiFactor.currentDcsr a).
  { rewrite Hd, Hd'. apply quotient_monotone; [|exact Hnoi].
    now apply or_else_one_positive. }
  assert (Hprop : MultiFactor.propertyScore a' <= MultiFactor.propertyScore a).
  { rewrite Hp, Hp'. rewrite <- Hd, <- Hd'.
    now apply propertyScoreOf_monotone. }
  assert (Ecred : MultiFactor.creditScore a' = MultiFactor.creditScore a)
    by (rewrite Hc, Hc'; reflexivity).
  assert (Eint : MultiFactor.interestRiskScore a'
                 = MultiFactor.interestRiskScore a)
    by (rewrite Hi, Hi'; reflexivity).
  repeat split; try assumption.
  rewrite Hf, Hf', Ecred, Eint. lra.
Qed.

Lemma higher_vacancy_never_raises_score_witness :
  exists a a',
    MultiFactor.calculateRiskScore MultiFactor.initialInput = Some a
    /\ MultiFactor.calculateRiskScore
         (withVacancy MultiFactor.initialInput 0.25) = Some a'
    /\ MultiFactor.currentDcsr a' <= MultiFactor.currentDcsr a
    /\ MultiFactor.propertyScore a' <= MultiFactor.propertyScore a
    /\ MultiFactor.creditScore a' = MultiFactor.creditScore a
    /\ MultiFactor.interestRiskScore a' = MultiFactor.interestRiskScore a
    /\ MultiFactor.finalScore a' <= MultiFactor.finalScore a.
Proof.
  apply (higher_vacancy_never_raises_score MultiFactor.initialInput 0.25);
    vm_compute; discriminate.
Defined.

(** *** The rate simulation against the present state *)

Lemma quotient_antitone (n d d' : Q) :
  0 <= n -> 0 < d -> d <= d' -> n / d' <= n / d.
Proof.
  intros Hn Hd Hd'.
  apply Qle_shift_div_r; [lra|].
  assert (Hq : 0 <= n / d) by (apply Qle_shift_div_l; lra).
  apply Qle_trans with (n / d * d).
  - assert (E : n / d * d == n) by (field; intros E; rewrite E in Hd; discriminate).
    rewrite E. apply Qle_refl.
  - rewrite !(Qmult_comm (n / d)). now apply Qmult_le_compat_r.
Qed.

Lemma or_else_compat (x x' d : Q) : x == x' -> (x ||| d) == (x' ||| d).
Proof.
  intros H. unfold JS.or_else. rewrite H.
  destruct (Qeq_bool x' 0); [reflexivity | exact H].
Qed.

Lemma noi_nonnegative (input : MultiFactor.Input) :
  0 <= MultiFactor.annualRentIncome input ->
  MultiFactor.vacancyRate input <= 1 ->
  MultiFactor.expenseRate input <= 1 ->
  0 <= MultiFactor.noi input.
Proof.
  intros Hr Hv He. unfold MultiFactor.noi.
  apply Qmult_le_0_compat; [apply Qmult_le_0_compat|]; lra.
Qed.

(** X8.  With a positive repayment, a non-negative total debt, a simulated
    rate that is not below the current rate and a non-negative net income
    (rent at least 0, vacancy and expense rates at most 1), the simulated
    repayment is at least the current repayment and the simulated coverage
    ratio is at most the current one. *)
Theorem rate_simulation_is_no_better
    (input : MultiFactor.Input) :
  0 < MultiFactor.annualRepayment input ->
  0 <= MultiFactor.totalDebt input ->
  MultiFactor.interestRate input <= MultiFactor.simulatedInterestRate input ->
  0 <= MultiFactor.annualRentIncome input ->
  MultiFactor.vacancyRate input <= 1 ->
  MultiFactor.expenseRate input <= 1 ->
  exists a,
    MultiFactor.calculateRiskScore input = Some a
    /\ MultiFactor.annualRepayment input <= MultiFactor.simulatedRepayment a
    /\ MultiFactor.simulatedDcsr a <= MultiFactor.currentDcsr a.
Proof.
  intros Hrep Hdebt Hrate Hrent Hvac Hexp.
  destruct (calculateRiskScore_simulations input)
    as (a & Ha & Hd & Hs & Hsd & _).
  exists a. split; [exact Ha|].
  assert (Hinc : 0 <= MultiFactor.estimateIncreasedRepayment
                        (MultiFactor.totalDebt input)
                        (MultiFactor.interestRate input)
                        (MultiFactor.simulatedInterestRate input)).
  { unfold MultiFactor.estimateIncreasedRepayment.
    apply Qmult_le_0_compat; [apply Qmult_le_0_compat|]; lra. }
  assert (Hle : MultiFactor.annualRepayment input
                <= MultiFactor.simulatedRepayment a) by (rewrite Hs; lra).
  split; [exact Hle|].
  rewrite Hsd, Hd. rewrite <- Hs.
  rewrite (or_else_nonzero (MultiFactor.annualRepayment input) 1)
    by (intros E; rewrite E in Hrep; discriminate).
  rewrite (or_else_nonzero (MultiFactor.simulatedRepayment a) 1)
    by (intros E; rewrite E in Hle; lra).
  apply quotient_antitone; [|exact Hrep|exact Hle].
  now apply noi_nonnegative.
Qed.

Lemma rate_simulation_is_no_better_witness :
  exists a,
    MultiFactor.calculateRiskScore MultiFactor.initialInput = Some a
    /\ MultiFactor.annualRepayment MultiFactor.initialInput
       <= MultiFactor.simulatedRepayment a
    /\ MultiFactor.simulatedDcsr a <= MultiFactor.currentDcsr a.
Proof.
  apply (rate_simulation_is_no_better MultiFactor.initialInput);
    vm_compute; (reflexivity || discriminate).
Defined.

(** X9.  When the simulated rate equals the current rate the estimated
    increase is zero: the simulated repayment is the current repayment and
    the simulated coverage ratio is the current coverage ratio. *)
Theorem simulating_current_rate_changes_nothing
    (input : MultiFactor.Input) :
  MultiFactor.simulatedInterestRate input == MultiFactor.interestRate input ->
  exists a,
    MultiFactor.calculateRiskScore input = Some a
    /\ MultiFactor.estimateIncreasedRepayment (MultiFactor.totalDebt input)
         (MultiFactor.interestRate input)
         (MultiFactor.simulatedInterestRate input) == 0
    /\ MultiFactor.simulatedRepayment a == MultiFactor.annualRepayment input
    /\ MultiFactor.simulatedDcsr a == MultiFactor.currentDcsr a.
Proof.
  intros Hrate.
  destruct (calculateRiskScore_simulations input)
    as (a & Ha & Hd & Hs & Hsd & _).
  exists a. split; [exact Ha|].
  assert (Hzero : MultiFactor.estimateIncreasedRepayment
                    (MultiFactor.totalDebt input)
                    (MultiFactor.interestRate input)
                    (MultiFactor.simulatedInterestRate input) == 0).
  { unfold MultiFactor.estimateIncreasedRepayment. rewrite Hrate. ring. }
  assert (Hsame : MultiFactor.simulatedRepayment a
                  == MultiFactor.annualRepayment input).
  { rewrite Hs, Hzero. ring. }
  split; [exact Hzero|]. split; [exact Hsame|].
  rewrite Hsd, Hd. rewrite <- Hs.
  now rewrite (or_else_compat _ _ 1 Hsame).
Qed.

Lemma simulating_current_rate_changes_nothing_witness :
  let input := withSimulatedInterestRate MultiFactor.initialInput 0.03 in
  exists a,
    MultiFactor.calculateRiskScore input = Some a
    /\ MultiFactor.estimateIncreasedRepayment (MultiFactor.totalDebt input)
         (MultiFactor.interestRate input)
         (MultiFactor.simulatedInterestRate input) == 0
    /\ MultiFactor.simulatedRepayment a == MultiFactor.annualRepayment input
    /\ MultiFactor.simulatedDcsr a == MultiFactor.currentDcsr a.
Proof.
  apply (simulating_current_rate_changes_nothing
           (withSimulatedInterestRate MultiFactor.initialInput 0.03)).
  reflexivity.
Defined.

(** *** The vacancy simulation against the present state *)

(** X10.  With a non-negative rent, an expense rate of at most 1 and a
    non-negative repayment, the vacancy simulation is no better than the
    present state when the assumed vacancy rate is at most the fixed
    worst-case rate 0.20, and no worse than the present state when the
    assumed vacancy rate is 0.20 or more. *)
Theorem vacancy_simulation_against_present (input : MultiFactor.Input) :
  0 <= MultiFactor.annualRentIncome input ->
  MultiFactor.expenseRate input <= 1 ->
  0 <= MultiFactor.annualRepayment input ->
  exists a,
    MultiFactor.calculateRiskScore input = Some a
    /\ (MultiFactor.vacancyRate input <= 0.20 ->
        MultiFactor.worstCaseVacancyDcsr a <= MultiFactor.currentDcsr a)
    /\ (0.20 <= MultiFactor.vacancyRate input ->
        MultiFactor.currentDcsr a <= MultiFactor.worstCaseVacancyDcsr a).
Proof.
  intros Hrent Hexp Hrep.
  destruct (calculateRiskScore_simulations input)
    as (a & Ha & Hd & _ & _ & _ & Hw & _).
  exists a. split; [exact Ha|].
  rewrite Hd, Hw. unfold MultiFactor.noi, MultiFactor.WORST_CASE_VACANCY_RATE.
  split; intros Hv;
    (apply quotient_monotone; [now apply or_else_one_positive|]);
    (apply Qmult_le_compat_r; [|lra]);
    rewrite !(Qmult_comm (MultiFactor.annualRentIncome input));
    (apply Qmult_le_compat_r; [lra | exact Hrent]).
Qed.

Lemma vacancy_simulation_against_present_witness :
  exists a,
    MultiFactor.calculateRiskScore MultiFactor.initialInput = Some a
    /\ (MultiFactor.vacancyRate MultiFactor.initialInput <= 0.20 ->
        MultiFactor.worstCaseVacancyDcsr a <= MultiFactor.currentDcsr a)
    /\ (0.20 <= MultiFactor.vacancyRate MultiFactor.initialInput ->
        MultiFactor.currentDcsr a <= MultiFactor.worstCaseVacancyDcsr a).
Proof.
  apply (vacancy_simulation_against_present MultiFactor.initialInput);
    vm_compute; discriminate.
Defined.

(** ** Further properties of the DSR/DCR scorer *)

Lemma floor_monotone (x y : Q) : x <= y -> JS.floor x <= JS.floor y.
Proof.
  intros H. unfold JS.floor. rewrite <- Zle_Qle. now apply Qfloor_resp_le.
Qed.

Lemma min_monotone (x y y' : Q) : y <= y' -> JS.min x y <= JS.min x y'.
Proof.
  intros H. unfold JS.min.
  destruct (Qle_bool x y) eqn:E; destruct (Qle_bool x y') eqn:E'.
  - apply Qle_refl.
  - apply Qle_bool_iff in E. apply not_true_iff_false in E'.
    exfalso. apply E', Qle_bool_iff. lra.
  - apply not_true_iff_false in E. rewrite Qle_bool_iff in E. lra.
  - exact H.
Qed.

Lemma max_monotone (x y y' : Q) : y <= y' -> JS.max x y <= JS.max x y'.
Proof.
  intros H. unfold JS.max.
  destruct (Qle_bool x y) eqn:E; destruct (Qle_bool x y') eqn:E'.
  - exact H.
  - apply Qle_bool_iff in E. apply not_true_iff_false in E'.
    exfalso. apply E', Qle_bool_iff. lra.
  - apply Qle_bool_iff in E'. exact E'.
  - apply Qle_refl.
Qed.

Lemma clamp_monotone (b b' : Q) :
  b <= b' -> JS.max 0 (JS.min 100 b) <= JS.max 0 (JS.min 100 b').
Proof. intros H. now apply max_monotone, min_monotone. Qed.

Lemma initialBaseScore_monotone (dsr dsr' : Q) :
  dsr <= dsr' ->
  RiskCalculator.initialBaseScore dsr <= RiskCalculator.initialBaseScore dsr'.
Proof.
  intros H. unfold RiskCalculator.initialBaseScore.
  apply min_monotone, floor_monotone. lra.
Qed.

(** The adjustment grows when the coverage shrinks. *)
Lemma adjustByDcr_monotone (b b' dcr dcr' : Q) :
  b <= b' -> dcr' <= dcr ->
  fst (RiskCalculator.adjustByDcr b dcr)
  <= fst (RiskCalculator.adjustByDcr b' dcr').
Proof.
  intros Hb Hd.
  destruct (adjustByDcr_cases b dcr) as [[H E] | [[H E] | [H E]]];
    destruct (adjustByDcr_cases b' dcr') as [[H' E'] | [[H' E'] | [H' E']]];
    rewrite E, E'; cbn [fst]; lra.
Qed.

Lemma adjustByDcr_at_least (b b' dcr : Q) :
  b <= b' -> b - 10 <= fst (RiskCalculator.adjustByDcr b' dcr).
Proof.
  intros Hb.
  destruct (adjustByDcr_cases b' dcr) as [[H E] | [[H E] | [H E]]];
    rewrite E; cbn [fst]; lra.
Qed.

Lemma adjustByDcr_uncovered (b dcr : Q) :
  dcr < 1 -> fst (RiskCalculator.adjustByDcr b dcr) = b + 40.
Proof.
  intros Hd.
  destruct (adjustByDcr_cases b dcr) as [[H E] | [[H E] | [H E]]];
    rewrite E; cbn [fst]; try reflexivity; exfalso; lra.
Qed.

Lemma adjustByDcr_sentinel (b : Q) :
  RiskCalculator.adjustByDcr b 999.0
  = (b - 10, RiskCalculator.dcrDetailLow).
Proof. reflexivity. Qed.

(** The score before the clamp never falls when the repayment grows. *)
Lemma adjusted_score_monotone_in_repayment (income noi r r' : Q) :
  0 < income -> 0 <= r -> r <= r' ->
  fst (RiskCalculator.adjustByDcr
         (RiskCalculator.initialBaseScore (r / income))
         (if r >? 0 then noi / r else 999.0))
  <= fst (RiskCalculator.adjustByDcr
            (RiskCalculator.initialBaseScore (r' / income))
            (if r' >? 0 then noi / r' else 999.0)).
Proof.
  intros Hinc Hr Hrr.
  assert (Hb : RiskCalculator.initialBaseScore (r / income)
               <= RiskCalculator.initialBaseScore (r' / income))
    by now apply initialBaseScore_monotone, quotient_monotone.
  destruct (r >? 0) eqn:E; order_facts.
  - assert (E' : (r' >? 0) = true) by (apply ltb_true_iff; lra).
    rewrite E'.
    destruct (Qlt_le_dec noi 0) as [Hneg | Hpos].
    + assert (H1 : noi / r < 1).
      { apply Qlt_shift_div_r; lra. }
      assert (H2 : noi / r' < 1).
      { apply Qlt_shift_div_r; lra. }
      rewrite (adjustByDcr_uncovered _ _ H1), (adjustByDcr_uncovered _ _ H2).
      lra.
    + apply adjustByDcr_monotone; [exact Hb|].
      now apply quotient_antitone.
  - rewrite adjustByDcr_sentinel. cbn [fst].
    now apply adjustByDcr_at_least.
Qed.

(** *** Whole scores *)

Lemma whole_plus (x y : Q) :
  (exists z : Z, x == inject_Z z) -> (exists z : Z, y == inject_Z z) ->
  exists z : Z, x + y == inject_Z z.
Proof.
  intros (a & Ha) (b & Hb). exists (a + b)%Z.
  now rewrite Ha, Hb, inject_Z_plus.
Qed.

Lemma whole_floor (x : Q) : exists z : Z, JS.floor x == inject_Z z.
Proof. exists (Qfloor x). reflexivity. Qed.

Lemma whole_min (x y : Q) :
  (exists z : Z, x == inject_Z z) -> (exists z : Z, y == inject_Z z) ->
  exists z : Z, JS.min x y == inject_Z z.
Proof. intros Hx Hy. unfold JS.min. now destruct (Qle_bool x y). Qed.

Lemma whole_max (x y : Q) :
  (exists z : Z, x == inject_Z z) -> (exists z : Z, y == inject_Z z) ->
  exists z : Z, JS.max x y == inject_Z z.
Proof. intros Hx Hy. unfold JS.max. now destruct (Qle_bool x y). Qed.

Lemma whole_literal (z : Z) : exists z' : Z, inject_Z z == inject_Z z'.
Proof. now exists z. Qed.

Lemma whole_adjust (b dcr : Q) :
  (exists z : Z, b == inject_Z z) ->
  exists z : Z, fst (RiskCalculator.adjustByDcr b dcr) == inject_Z z.
Proof.
  intros Hb.
  destruct (adjustByDcr_cases b dcr) as [[H E] | [[H E] | [H E]]];
    rewrite E; cbn [fst]; apply whole_plus; try exact Hb.
  - apply (whole_literal 40).
  - apply (whole_literal 15).
  - apply (whole_literal (-10)).
Qed.

(** X11.  For every form and every override the score of the DSR/DCR
    scorer is a whole number between 0 and 100. *)
Theorem score_is_whole_number
    (data : RiskCalculator.FormData) (repaymentOverride : option Q) :
  exists r (z : Z),
    RiskCalculator.calculateRealEstateRisk data repaymentOverride = Some r
    /\ RiskCalculator.score r == inject_Z z
    /\ (0 <= z <= 100)%Z.
Proof.
  destruct (calculateRealEstateRisk_total data repaymentOverride)
    as (r & Hr & Hrange).
  assert (Hw : exists z : Z, RiskCalculator.score r == inject_Z z).
  { destruct (Qeq_dec (RiskCalculator.annualIncomeDebtor data) 0) as [H | H].
    - rewrite (calculateRealEstateRisk_zero_income _ _ H) in Hr.
      injection Hr as <-. apply (whole_literal 100).
    - rewrite (calculateRealEstateRisk_nonzero_income _ _ H) in Hr.
      injection Hr as <-. cbn [RiskCalculator.score].
      apply whole_max; [apply (whole_literal 0)|].
      apply whole_min; [apply (whole_literal 100)|].
      apply whole_plus; [|apply whole_floor].
      apply whole_adjust. unfold RiskCalculator.initialBaseScore.
      apply whole_min; [apply (whole_literal 100) | apply whole_floor]. }
  destruct Hw as (z & Hz). exists r, z.
  split; [exact Hr|]. split; [exact Hz|].
  rewrite Hz in Hrange. destruct Hrange as [H0 H100].
  change 0 with (inject_Z 0) in H0. change 100 with (inject_Z 100) in H100.
  rewrite <- Zle_Qle in H0, H100. lia.
Qed.

(** *** Levels and card styles *)

Lemma levelOf_cases (s : Q) :
  (70 <= s /\ RiskCalculator.levelOf s = RiskCalculator.levelVeryHigh
   /\ ResultScreen.getRiskStyle s = ResultScreen.styleVeryHigh)
  \/ (50 <= s < 70 /\ RiskCalculator.levelOf s = RiskCalculator.levelHigh
      /\ ResultScreen.getRiskStyle s = ResultScreen.styleHigh)
  \/ (30 <= s < 50 /\ RiskCalculator.levelOf s = RiskCalculator.levelMedium
      /\ ResultScreen.getRiskStyle s = ResultScreen.styleMedium)
  \/ (s < 30 /\ RiskCalculator.levelOf s = RiskCalculator.levelLow
      /\ ResultScreen.getRiskStyle s = ResultScreen.styleLow).
Proof.
  unfold RiskCalculator.levelOf, ResultScreen.getRiskStyle.
  destruct (s >=? 70) eqn:E70; [|destruct (s >=? 50) eqn:E50;
    [|destruct (s >=? 30) eqn:E30]]; order_facts.
  - left. now repeat split.
  - right. left. now repeat split.
  - right. right. left. now repeat split.
  - right. right. right. now repeat split.
Qed.

(** X12.  The level text of a result and the style of the card that shows
    it are chosen by the same thresholds.  With a borrower income other
    than zero: from 70 the very-high level on the red style, from 50 the
    high level on yellow, from 30 the medium level on blue, below 30 the
    low level on green.  With a zero income the fatal text is shown on the
    red style. *)
Theorem card_style_agrees_with_level
    (data : RiskCalculator.FormData) (repaymentOverride : option Q) :
  exists r,
    RiskCalculator.calculateRealEstateRisk data repaymentOverride = Some r
    /\ ((RiskCalculator.annualIncomeDebtor data == 0
         /\ RiskCalculator.level r = RiskCalculator.fatalLevel
         /\ ResultScreen.getRiskStyle (RiskCalculator.score r)
            = ResultScreen.styleVeryHigh)
        \/ (~ RiskCalculator.annualIncomeDebtor data == 0
            /\ ((70 <= RiskCalculator.score r
                 /\ RiskCalculator.level r = RiskCalculator.levelVeryHigh
                 /\ ResultScreen.getRiskStyle (RiskCalculator.score r)
                    = ResultScreen.styleVeryHigh)
                \/ (50 <= RiskCalculator.score r < 70
                    /\ RiskCalculator.level r = RiskCalculator.levelHigh
                    /\ ResultScreen.getRiskStyle (RiskCalculator.score r)
                       = ResultScreen.styleHigh)
                \/ (30 <= RiskCalculator.score r < 50
                    /\ RiskCalculator.level r = RiskCalculator.levelMedium
                    /\ ResultScreen.getRiskStyle (RiskCalculator.score r)
                       = ResultScreen.styleMedium)
                \/ (RiskCalculator.score r < 30
                    /\ RiskCalculator.level r = RiskCalculator.levelLow
                    /\ ResultScreen.getRiskStyle (RiskCalculator.score r)
                       = ResultScreen.styleLow)))).
Proof.
  destruct (Qeq_dec (RiskCalculator.annualIncomeDebtor data) 0) as [H | H].
  - rewrite (calculateRealEstateRisk_zero_income _ _ H).
    eexists. split; [reflexivity|]. left. now repeat split.
  - rewrite (calculateRealEstateRisk_nonzero_income _ _ H).
    eexists. split; [reflexivity|]. right. split; [exact H|].
    cbn [RiskCalculator.score RiskCalculator.level].
    apply levelOf_cases.
Qed.

(** *** The score against the repayment *)

(** X13.  With a positive borrower income, a larger repayment never lowers
    the score: for overrides 0 <= r <= r' the score under r is at most the
    score under r'. *)
Theorem score_monotone_in_repayment
    (data : RiskCalculator.FormData) (r r' : Q) :
  0 < RiskCalculator.annualIncomeDebtor data ->
  0 <= r -> r <= r' ->
  exists s s',
    RiskCalculator.calculateRealEstateRisk data (Some r) = Some s
    /\ RiskCalculator.calculateRealEstateRisk data (Some r') = Some s'
    /\ RiskCalculator.score s <= RiskCalculator.score s'.
Proof.
  intros Hinc Hr Hrr.
  assert (H : ~ RiskCalculator.annualIncomeDebtor data == 0)
    by (intros E; rewrite E in Hinc; discriminate).
  rewrite !(calculateRealEstateRisk_nonzero_income _ _ H).
  do 2 eexists. split; [reflexivity|]. split; [reflexivity|].
  cbn [RiskCalculator.score RiskCalculator.effectiveRepayment].
  apply clamp_monotone, Qplus_le_compat; [|apply Qle_refl].
  now apply adjusted_score_monotone_in_repayment.
Qed.

Lemma score_monotone_in_repayment_witness :
  exists s s',
    RiskCalculator.calculateRealEstateRisk RiskCalculator.initialFormData
      (Some 1000000) = Some s
    /\ RiskCalculator.calculateRealEstateRisk RiskCalculator.initialFormData
         (Some 1600000) = Some s'
    /\ RiskCalculator.score s <= RiskCalculator.score s'.
Proof.
  apply (score_monotone_in_repayment RiskCalculator.initialFormData
           1000000 1600000); vm_compute; (reflexivity || discriminate).
Defined.

(** X14.  In the stress driver, with a positive borrower income and a
    non-negative repayment, loan amount and rate increase, the stressed
    repayment is at least the repayment of the form and the rate-hike
    scenario is never scored below the original one. *)
Theorem rate_hike_never_scores_lower
    (originalData : RiskCalculator.FormData)
    (rateIncreasePercentage worstVacancyRate : option Q) :
  0 < RiskCalculator.annualIncomeDebtor originalData ->
  0 <= RiskCalculator.annualRepayment originalData ->
  0 <= RiskCalculator.loanAmount originalData ->
  0 <= match rateIncreasePercentage with Some p => p | None => 0.02 end ->
  exists sim,
    RiskCalculator.runWorstCaseSimulation originalData
      rateIncreasePercentage worstVacancyRate = Some sim
    /\ RiskCalculator.annualRepayment originalData
       <= RiskCalculator.newRepaymentAmount sim
    /\ RiskCalculator.score (RiskCalculator.original sim)
       <= RiskCalculator.score (RiskCalculator.rateHike sim).
Proof.
  intros Hinc Hrep Hloan Hrate.
  assert (H : ~ RiskCalculator.annualIncomeDebtor originalData == 0)
    by (intros E; rewrite E in Hinc; discriminate).
  assert (Hw : ~ RiskCalculator.annualIncomeDebtor
                 (RiskCalculator.withVacancyRate originalData
                    (RiskCalculator.orDefault worstVacancyRate 0.20)) == 0)
    by exact H.
  unfold RiskCalculator.runWorstCaseSimulation.
  rewrite (calculateRealEstateRisk_nonzero_income _ None Hw).
  rewrite (calculateRealEstateRisk_nonzero_income _ (Some _) H).
  rewrite (calculateRealEstateRisk_nonzero_income _ None H).
  cbn [JS.bind]. eexists. split; [reflexivity|].
  cbn [RiskCalculator.newRepaymentAmount RiskCalculator.original
       RiskCalculator.rateHike RiskCalculator.score
       RiskCalculator.effectiveRepayment].
  assert (Hinc' : 0 <= RiskCalculator.loanAmount originalData
                       * RiskCalculator.orDefault rateIncreasePercentage 0.02)
    by (apply Qmult_le_0_compat; assumption).
  split; [lra|].
  apply clamp_monotone, Qplus_le_compat; [|apply Qle_refl].
  apply adjusted_score_monotone_in_repayment; [exact Hinc | exact Hrep | lra].
Qed.

Lemma rate_hike_never_scores_lower_witness :
  exists sim,
    RiskCalculator.runWorstCaseSimulation RiskCalculator.initialFormData
      None None = Some sim
    /\ RiskCalculator.annualRepayment RiskCalculator.initialFormData
       <= RiskCalculator.newRepaymentAmount sim
    /\ RiskCalculator.score (RiskCalculator.original sim)
       <= RiskCalculator.score (RiskCalculator.rateHike sim).
Proof.
  apply (rate_hike_never_scores_lower RiskCalculator.initialFormData None None);
    vm_compute; (reflexivity || discriminate).
Defined.

(** *** The stress driver and the result screen *)

(** The driver returns the three results of the scorer. *)
Lemma runWorstCaseSimulation_some
    (d : RiskCalculator.FormData) (rateArg vacancyArg : option Q) :
  let stressed :=
    RiskCalculator.annualRepayment d
    + RiskCalculator.loanAmount d * RiskCalculator.orDefault rateArg 0.02 in
  exists o v h,
    RiskCalculator.calculateRealEstateRisk d None = Some o
    /\ RiskCalculator.calculateRealEstateRisk
         (RiskCalculator.withVacancyRate d
            (RiskCalculator.orDefault vacancyArg 0.20)) None = Some v
    /\ RiskCalculator.calculateRealEstateRisk d (Some stressed) = Some h
    /\ RiskCalculator.runWorstCaseSimulation d rateArg vacancyArg
       = Some {| RiskCalculator.original := o;
                 RiskCalculator.vacancy := v;
                 RiskCalculator.rateHike := h;
                 RiskCalculator.newRepaymentAmount := stressed |}.
Proof.
  intros stressed.
  destruct (calculateRealEstateRisk_total d None) as (o & Ho & _).
  destruct (calculateRealEstateRisk_total
              (RiskCalculator.withVacancyRate d
                 (RiskCalculator.orDefault vacancyArg 0.20)) None)
    as (v & Hv & _).
  destruct (calculateRealEstateRisk_total d (Some stressed)) as (h & Hh & _).
  exists o, v, h. repeat (split; [assumption|]).
  unfold RiskCalculator.runWorstCaseSimulation. cbv zeta. fold stressed.
  rewrite Hv, Hh, Ho. reflexivity.
Qed.

Lemma withVacancyRate_same (d : RiskCalculator.FormData) :
  RiskCalculator.withVacancyRate d (RiskCalculator.vacancyRateAssumption d) = d.
Proof. now destruct d. Qed.

(** With everything else fixed, a higher assumed vacancy never lowers the
    score. *)
Lemma score_monotone_in_vacancy
    (d : RiskCalculator.FormData) (v v' : Q) (s s' : RiskCalculator.RiskResult) :
  0 <= RiskCalculator.annualRentalIncomeGross d ->
  v <= v' ->
  RiskCalculator.calculateRealEstateRisk
    (RiskCalculator.withVacancyRate d v) None = Some s ->
  RiskCalculator.calculateRealEstateRisk
    (RiskCalculator.withVacancyRate d v') None = Some s' ->
  RiskCalculator.score s <= RiskCalculator.score s'.
Proof.
  intros Hrent Hv Hs Hs'.
  destruct (Qeq_dec (RiskCalculator.annualIncomeDebtor d) 0) as [H | H].
  - rewrite (calculateRealEstateRisk_zero_income
               (RiskCalculator.withVacancyRate d v) None H) in Hs.
    rewrite (calculateRealEstateRisk_zero_income
               (RiskCalculator.withVacancyRate d v') None H) in Hs'.
    injection Hs as <-. injection Hs' as <-. apply Qle_refl.
  - rewrite (calculateRealEstateRisk_nonzero_income
               (RiskCalculator.withVacancyRate d v) None H) in Hs.
    rewrite (calculateRealEstateRisk_nonzero_income
               (RiskCalculator.withVacancyRate d v') None H) in Hs'.
    injection Hs as <-. injection Hs' as <-.
    cbn [RiskCalculator.score RiskCalculator.effectiveRepayment
         RiskCalculator.withVacancyRate RiskCalculator.annualRepayment
         RiskCalculator.annualIncomeDebtor RiskCalculator.otherDebtsRatio].
    apply clamp_monotone, Qplus_le_compat; [|apply Qle_refl].
    destruct (RiskCalculator.annualRepayment d >? 0) eqn:E; order_facts.
    + apply adjustByDcr_monotone; [apply Qle_refl|].
      apply quotient_monotone; [exact E|].
      unfold RiskCalculator.netIncome.
      cbn [RiskCalculator.withVacancyRate
           RiskCalculator.annualRentalIncomeGross
           RiskCalculator.vacancyRateAssumption
           RiskCalculator.annualExpensesRatio].
      apply Qplus_le_compat; [|apply Qle_refl].
      rewrite !(Qmult_comm (RiskCalculator.annualRentalIncomeGross d)).
      apply Qmult_le_compat_r; [lra | exact Hrent].
    + apply Qle_refl.
Qed.

(** X15.  In the stress driver, with a non-negative gross rent, the vacancy
    scenario is never scored below the original when the assumed vacancy
    rate of the form is at most the worst-case rate (0.20 unless given),
    and never above the original when the assumed rate is the worst-case
    rate or more. *)
Theorem vacancy_scenario_against_original
    (originalData : RiskCalculator.FormData)
    (rateIncreasePercentage worstVacancyRate : option Q) :
  0 <= RiskCalculator.annualRentalIncomeGross originalData ->
  let worst := match worstVacancyRate with Some v => v | None => 0.20 end in
  exists sim,
    RiskCalculator.runWorstCaseSimulation originalData
      rateIncreasePercentage worstVacancyRate = Some sim
    /\ (RiskCalculator.vacancyRateAssumption originalData <= worst ->
        RiskCalculator.score (RiskCalculator.original sim)
        <= RiskCalculator.score (RiskCalculator.vacancy sim))
    /\ (worst <= RiskCalculator.vacancyRateAssumption originalData ->
        RiskCalculator.score (RiskCalculator.vacancy sim)
        <= RiskCalculator.score (RiskCalculator.original sim)).
Proof.
  intros Hrent worst.
  destruct (runWorstCaseSimulation_some originalData
              rateIncreasePercentage worstVacancyRate)
    as (o & v & h & Ho & Hv & _ & Hsim).
  change (RiskCalculator.orDefault worstVacancyRate 0.20) with worst in Hv.
  rewrite <- (withVacancyRate_same originalData) in Ho.
  eexists. split; [exact Hsim|].
  cbn [RiskCalculator.original RiskCalculator.vacancy].
  split; intros Hle.
  - exact (score_monotone_in_vacancy originalData _ _ o v Hrent Hle Ho Hv).
  - exact (score_monotone_in_vacancy originalData _ _ v o Hrent Hle Hv Ho).
Qed.

Lemma vacancy_scenario_against_original_witness :
  let worst := 0.20 in
  exists sim,
    RiskCalculator.runWorstCaseSimulation RiskCalculator.initialFormData
      None None = Some sim
    /\ (RiskCalculator.vacancyRateAssumption RiskCalculator.initialFormData
        <= worst ->
        RiskCalculator.score (RiskCalculator.original sim)
        <= RiskCalculator.score (RiskCalculator.vacancy sim))
    /\ (worst
        <= RiskCalculator.vacancyRateAssumption RiskCalculator.initialFormData ->
        RiskCalculator.score (RiskCalculator.vacancy sim)
        <= RiskCalculator.score (RiskCalculator.original sim)).
Proof.
  apply (vacancy_scenario_against_original RiskCalculator.initialFormData
           None None).
  vm_compute. discriminate.
Defined.

(** X16.  When the borrower income is zero, the driver returns the fatal
    result three times, whatever the stress parameters, and still reports
    the stressed repayment. *)
Theorem zero_income_makes_every_scenario_fatal
    (originalData : RiskCalculator.FormData)
    (rateIncreasePercentage worstVacancyRate : option Q) :
  RiskCalculator.annualIncomeDebtor originalData == 0 ->
  RiskCalculator.runWorstCaseSimulation originalData
    rateIncreasePercentage worstVacancyRate
  = Some {| RiskCalculator.original := RiskCalculator.fatalResult;
            RiskCalculator.vacancy := RiskCalculator.fatalResult;
            RiskCalculator.rateHike := RiskCalculator.fatalResult;
            RiskCalculator.newRepaymentAmount :=
              RiskCalculator.annualRepayment originalData
              + RiskCalculator.loanAmount originalData
                * match rateIncreasePercentage with
                  | Some p => p
                  | None => 0.02
                  end |}.
Proof.
  intros H.
  assert (Hw : RiskCalculator.annualIncomeDebtor
                 (RiskCalculator.withVacancyRate originalData
                    (RiskCalculator.orDefault worstVacancyRate 0.20)) == 0)
    by exact H.
  unfold RiskCalculator.runWorstCaseSimulation.
  rewrite (calculateRealEstateRisk_zero_income _ None Hw).
  rewrite (calculateRealEstateRisk_zero_income _ (Some _) H).
  rewrite (calculateRealEstateRisk_zero_income _ None H).
  reflexivity.
Qed.

Lemma zero_income_makes_every_scenario_fatal_witness :
  RiskCalculator.runWorstCaseSimulation zeroIncomeData None None
  = Some {| RiskCalculator.original := RiskCalculator.fatalResult;
            RiskCalculator.vacancy := RiskCalculator.fatalResult;
            RiskCalculator.rateHike := RiskCalculator.fatalResult;
            RiskCalculator.newRepaymentAmount :=
              RiskCalculator.annualRepayment zeroIncomeData
              + RiskCalculator.loanAmount zeroIncomeData * 0.02 |}.
Proof.
  apply (zero_income_makes_every_scenario_fatal zeroIncomeData None None).
  reflexivity.
Defined.

(** *** The two notions of net income *)



(** *** What a card shows *)

(** X18.  A card shows the net income as not available exactly when the
    borrower income is zero (the fatal result carries none) or the computed
    net income is zero; otherwise it shows the computed net income. *)
Theorem card_net_income_display
    (data : RiskCalculator.FormData) (repaymentOverride newRepayment : option Q)
    (title : string) :
  exists r,
    RiskCalculator.calculateRealEstateRisk data repaymentOverride = Some r
    /\ (((RiskCalculator.annualIncomeDebtor data == 0
          \/ RiskCalculator.netIncome data == 0)
         /\ ResultScreen.shownNoi (ResultScreen.ResultCard title r newRepayment)
            = ResultScreen.NoiNotAvailable)
        \/ (~ RiskCalculator.annualIncomeDebtor data == 0
            /\ ~ RiskCalculator.netIncome data == 0
            /\ ResultScreen.shownNoi
                 (ResultScreen.ResultCard title r newRepayment)
               = ResultScreen.NoiAmount (RiskCalculator.netIncome data))).
Proof.
  destruct (Qeq_dec (RiskCalculator.annualIncomeDebtor data) 0) as [H | H].
  - rewrite (calculateRealEstateRisk_zero_income _ _ H).
    eexists. split; [reflexivity|]. left. split; [now left | reflexivity].
  - rewrite (calculateRealEstateRisk_nonzero_income _ _ H).
    eexists. split; [reflexivity|].
    cbn [ResultScreen.ResultCard ResultScreen.shownNoi].
    unfold ResultScreen.noiText. cbn [RiskCalculator.annualNetIncome].
    destruct (Qeq_bool (RiskCalculator.netIncome data) 0) eqn:E.
    + left. apply Qeq_bool_eq in E. split; [now right | reflexivity].
    + right. apply Qeq_bool_neq in E. now repeat split.
Qed.

(** X19.  With a borrower income other than zero and a repayment of zero,
    the property does not enter the score at all: the base score is 0, the
    sentinel brings the -10 of a covered debt, and the score is
    floor(otherDebtsRatio x 30) - 10 clamped to [0,100]. *)
Theorem zero_repayment_score
    (data : RiskCalculator.FormData) (repaymentOverride : option Q) :
  ~ RiskCalculator.annualIncomeDebtor data == 0 ->
  RiskCalculator.effectiveRepayment data repaymentOverride == 0 ->
  exists r,
    RiskCalculator.calculateRealEstateRisk data repaymentOverride = Some r
    /\ RiskCalculator.initialBaseScore
         (RiskCalculator.effectiveRepayment data repaymentOverride
          / RiskCalculator.annualIncomeDebtor data) == 0
    /\ RiskCalculator.dcrDetail r = RiskCalculator.dcrDetailLow
    /\ RiskCalculator.score r
       == JS.max 0 (JS.min 100
            (JS.floor (RiskCalculator.otherDebtsRatio data * 30) - 10)).
Proof.
  intros Hinc Hrep.
  pose proof (calculateRealEstateRisk_nonzero_income data repaymentOverride
                Hinc) as Hcalc. cbv zeta in Hcalc.
  assert (E : (RiskCalculator.effectiveRepayment data repaymentOverride >? 0)
              = false).
  { apply ltb_false_iff. rewrite Hrep. apply Qle_refl. }
  rewrite E, adjustByDcr_sentinel in Hcalc. cbn [fst snd] in Hcalc.
  assert (Hbase : RiskCalculator.initialBaseScore
                    (RiskCalculator.effectiveRepayment data repaymentOverride
                     / RiskCalculator.annualIncomeDebtor data) == 0).
  { unfold RiskCalculator.initialBaseScore, JS.floor.
    assert (Hz : Qfloor
                   (RiskCalculator.effectiveRepayment data repaymentOverride
                    / RiskCalculator.annualIncomeDebtor data * 150) = 0%Z).
    { rewrite Hrep. reflexivity. }
    rewrite Hz. reflexivity. }
  eexists. split; [exact Hcalc|].
  cbn [RiskCalculator.score RiskCalculator.dcrDetail].
  split; [exact Hbase|]. split; [reflexivity|].
  apply max_compat, min_compat. rewrite Hbase. ring.
Qed.

Lemma zero_repayment_score_witness :
  exists r,
    RiskCalculator.calculateRealEstateRisk zeroRepaymentData None = Some r
    /\ RiskCalculator.initialBaseScore
         (RiskCalculator.effectiveRepayment zeroRepaymentData None
          / RiskCalculator.annualIncomeDebtor zeroRepaymentData) == 0
    /\ RiskCalculator.dcrDetail r = RiskCalculator.dcrDetailLow
    /\ RiskCalculator.score r
       == JS.max 0 (JS.min 100
            (JS.floor (RiskCalculator.otherDebtsRatio zeroRepaymentData * 30)
             - 10)).
Proof.
  apply (zero_repayment_score zeroRepaymentData None).
  - vm_compute. discriminate.
  - reflexivity.
Defined.

(** X20.  Submitting the form always renders three cards, computed with the
    default stress parameters: the original card and the vacancy card (for
    the form with the vacancy rate set to 0.20) carry no repayment line,
    and the rate-hike card (for the repayment raised by 0.02 x loan amount)
    carries the stressed repayment as a paragraph unless that amount is
    zero, in which case the conditional yields the bare zero. *)
Theorem submit_renders_three_cards (formData : RiskCalculator.FormData) :
  let stressed :=
    RiskCalculator.annualRepayment formData
    + RiskCalculator.loanAmount formData * 0.02 in
  exists o v h,
    RiskCalculator.calculateRealEstateRisk formData None = Some o
    /\ RiskCalculator.calculateRealEstateRisk
         (RiskCalculator.withVacancyRate formData 0.20) None = Some v
    /\ RiskCalculator.calculateRealEstateRisk formData (Some stressed) = Some h
    /\ ResultScreen.handleSubmit formData
       = Some (ResultScreen.ResultCard "現状のベースリスク" o None,
               ResultScreen.ResultCard "空室率悪化シナリオ (20%想定)" v None,
               ResultScreen.ResultCard "金利上昇シナリオ (2%増想定)" h
                 (Some stressed))
    /\ ResultScreen.shownRepayment
         (ResultScreen.ResultCard "現状のベースリスク" o None)
       = ResultScreen.RepaymentNull
    /\ ResultScreen.shownRepayment
         (ResultScreen.ResultCard "空室率悪化シナリオ (20%想定)" v None)
       = ResultScreen.RepaymentNull
    /\ ((stressed == 0
         /\ ResultScreen.shownRepayment
              (ResultScreen.ResultCard "金利上昇シナリオ (2%増想定)" h
                 (Some stressed))
            = ResultScreen.RepaymentZero)
        \/ (~ stressed == 0
            /\ ResultScreen.shownRepayment
                 (ResultScreen.ResultCard "金利上昇シナリオ (2%増想定)" h
                    (Some stressed))
               = ResultScreen.RepaymentParagraph stressed)).
Proof.
  intros stressed.
  destruct (runWorstCaseSimulation_some formData None None)
    as (o & v & h & Ho & Hv & Hh & Hsim).
  exists o, v, h.
  split; [exact Ho|]. split; [exact Hv|]. split; [exact Hh|].
  split.
  { unfold ResultScreen.handleSubmit. rewrite Hsim. reflexivity. }
  split; [reflexivity|]. split; [reflexivity|].
  cbn [ResultScreen.ResultCard ResultScreen.shownRepayment
       ResultScreen.repaymentLine].
  destruct (Qeq_bool stressed 0) eqn:E.
  - left. apply Qeq_bool_eq in E. now split.
  - right. apply Qeq_bool_neq in E. now split.
Qed.
